(** * final.py: product loading and series / attribute filtering

    A shallow embedding of [load_products] and [filter_products] of
    [final.py], together with the part of the Python runtime those two
    functions touch.

    Conventions of the embedding:
    - a Python [str] is the [string] of its UTF-8 bytes; substring search
      and whitespace stripping on well-formed UTF-8 agree with the same
      operations on code points;
    - a Python [float] is a binary64 primitive float;
    - a Python [int] is a [Z];
    - the values that [json.load] builds are trees ([value]); dictionaries
      are never written by the program and are kept as values, lists are
      appended to and live in a store of list objects addressed by location;
    - an exception is an explicit outcome. *)

From Stdlib Require Import ZArith Floats DecimalString Ascii.
From stdpp Require Import gmap strings list.

Set Warnings "-register-all".
Open Scope Z_scope.

(** ** Python values *)

Inductive value :=
| VNone
| VBool (b : bool)
| VInt (z : Z)
| VFloat (f : float)
| VStr (s : string)
| VList (l : list value)
| VDict (d : gmap string value).

(** The bounds of a range slider arrive as Python numbers. *)
Inductive number :=
| NInt (z : Z)
| NFloat (f : float).

(** Exceptions the modelled code can meet. [Stuck] is not a Python exception:
    it marks a run of the model that reads a location holding no object, or a
    loop that outlives the bound the model gives it. *)
Inductive exn :=
| AttributeError
| TypeError
| ValueError
| OverflowError
| Stuck.

Inductive outcome (A : Type) :=
| Ok (a : A)
| Raise (e : exn).
Arguments Ok {A} a.
Arguments Raise {A} e.

#[global] Instance outcome_ret : MRet outcome := λ A a, Ok a.
#[global] Instance outcome_fmap : FMap outcome := λ A B f o,
  match o with
  | Ok a => Ok (f a)
  | Raise e => Raise e
  end.
#[global] Instance outcome_bind : MBind outcome := λ A B f o,
  match o with
  | Ok a => f a
  | Raise e => Raise e
  end.

(** ** Strings *)

Definition nl : string := String (ascii_of_nat 10) EmptyString.

(** Truth value of a [str]: non-empty. *)
Definition str_truthy (s : string) : bool :=
  match s with
  | EmptyString => false
  | String _ _ => true
  end.

(** [q in s] on strings: [q] occurs in [s] as a contiguous run. *)
Fixpoint contains (q s : string) : bool :=
  String.prefix q s ||
  match s with
  | EmptyString => false
  | String _ s' => contains q s'
  end.

(** [q] occurs in [s]: some text, then [q], then some text. *)
Definition occurs (q s : string) : Prop := ∃ a b, s = a +:+ q +:+ b.

(** [str(n)] for an [int]. *)
Definition dec (z : Z) : string := NilZero.string_of_int (Z.to_int z).

(** The characters [str.strip()] removes, each as its UTF-8 encoding:
    U+0009..U+000D, U+001C..U+001F, U+0020, U+0085, U+00A0, U+1680,
    U+2000..U+200A, U+2028, U+2029, U+202F, U+205F, U+3000. *)
Definition bytes (l : list nat) : string :=
  String.string_of_list_ascii (ascii_of_nat <$> l).

Definition whitespace : list string :=
  bytes <$>
  [ [9]; [10]; [11]; [12]; [13]; [28]; [29]; [30]; [31]; [32];
    [194; 133]; [194; 160]; [225; 154; 128];
    [226; 128; 128]; [226; 128; 129]; [226; 128; 130]; [226; 128; 131];
    [226; 128; 132]; [226; 128; 133]; [226; 128; 134]; [226; 128; 135];
    [226; 128; 136]; [226; 128; 137]; [226; 128; 138];
    [226; 128; 168]; [226; 128; 169]; [226; 128; 175];
    [226; 129; 159]; [227; 128; 128] ]%nat.

Fixpoint drop_str (n : nat) (s : string) : string :=
  match n, s with
  | S n', String _ s' => drop_str n' s'
  | _, _ => s
  end.

(** One leading character of the table removed, when there is one. *)
Fixpoint drop_leading (table : list string) (s : string) : option string :=
  match table with
  | [] => None
  | w :: table' =>
      if String.prefix w s then Some (drop_str (String.length w) s)
      else drop_leading table' s
  end.

Fixpoint lstrip_upto (n : nat) (table : list string) (s : string) : string :=
  match n with
  | O => s
  | S n' =>
      match drop_leading table s with
      | Some s' => lstrip_upto n' table s'
      | None => s
      end
  end.

Definition lstrip (s : string) : string :=
  lstrip_upto (String.length s) whitespace s.

Definition rstrip (s : string) : string :=
  String.rev
    (lstrip_upto (String.length s) (String.rev <$> whitespace) (String.rev s)).

(** [s.strip()] *)
Definition strip (s : string) : string := rstrip (lstrip s).

(** ** Numbers *)

(** [float(n)] for an [int]: the nearest binary64, ties to even;
    [OverflowError] beyond the finite range. *)
Definition float_of_int (z : Z) : outcome float :=
  let f := SF2Prim (binary_normalize prec emax z 0 false) in
  if PrimFloat.is_infinity f then Raise OverflowError else Ok f.

(** An [int] against a [float], compared exactly as Python does; [None] for
    a NaN. *)
Definition compare_int_float (z : Z) (x : float) : option comparison :=
  match Prim2SF x with
  | S754_nan => None
  | S754_infinity neg => Some (if neg then Gt else Lt)
  | S754_zero _ => Some (z ?= 0)
  | S754_finite neg m e =>
      let v := if neg then Z.neg m else Z.pos m in
      Some (if 0 <=? e then z ?= v * 2 ^ e else z * 2 ^ (- e) ?= v)
  end.

(** [lo <= x] for a bound [lo] and a float [x]. *)
Definition le_number_float (lo : number) (x : float) : bool :=
  match lo with
  | NFloat f => PrimFloat.leb f x
  | NInt z =>
      match compare_int_float z x with
      | Some Lt | Some Eq => true
      | Some Gt | None => false
      end
  end.

(** [x <= hi] for a float [x] and a bound [hi]. *)
Definition le_float_number (x : float) (hi : number) : bool :=
  match hi with
  | NFloat f => PrimFloat.leb x f
  | NInt z =>
      match compare_int_float z x with
      | Some Gt | Some Eq => true
      | Some Lt | None => false
      end
  end.

(** The chained comparison [lo <= x <= hi]. *)
Definition within (lo : number) (x : float) (hi : number) : bool :=
  le_number_float lo x && le_float_number x hi.

(** ** Built-ins left to the interpreter

    Three built-ins are taken as they come from the interpreter: the parser
    behind [float(s)] for a [str] ([None] where it raises [ValueError]), the
    [repr] of a float, and the [repr] of a list or a dictionary. *)
Class Builtins := {
  float_of_str : string → option float;
  float_repr : float → string;
  container_repr : value → string;
}.

Section Coercions.
Context `{Builtins}.

(** [float(v)] *)
Definition py_float (v : value) : outcome float :=
  match v with
  | VFloat f => Ok f
  | VInt z => float_of_int z
  | VBool b => Ok (if b then 1%float else 0%float)
  | VStr s =>
      match float_of_str s with
      | Some f => Ok f
      | None => Raise ValueError
      end
  | VNone | VList _ | VDict _ => Raise TypeError
  end.

(** [str(v)], which is also what an f-string field [{v}] shows. For a list
    or a dictionary it is the text [str] returns when it returns one: on a
    value nested beyond what the interpreter's recursion allows [str] raises
    [RecursionError], and that case has no counterpart here. The theorems
    that assert that a call raises nothing are stated for records whose
    fields read by the program hold scalars ([plain] below), where [str]
    always returns. *)
Definition py_str (v : value) : string :=
  match v with
  | VStr s => s
  | VNone => "None"
  | VBool b => if b then "True" else "False"
  | VInt z => dec z
  | VFloat f => float_repr f
  | VList _ | VDict _ => container_repr v
  end.

(** A value that stands for no number: [null], a list, a dictionary, or a
    text that [float] rejects. *)
Definition non_numeric (v : value) : bool :=
  match v with
  | VNone | VList _ | VDict _ => true
  | VStr s =>
      match float_of_str s with
      | Some _ => false
      | None => true
      end
  | VBool _ | VInt _ | VFloat _ => false
  end.
End Coercions.

(** A record is a dictionary. *)
Definition is_record (p : value) : bool :=
  match p with
  | VDict _ => true
  | _ => false
  end.

(** A JSON scalar: [null], [true], [false], a number or a text. *)
Definition scalar (v : value) : bool :=
  match v with
  | VList _ | VDict _ => false
  | VNone | VBool _ | VInt _ | VFloat _ | VStr _ => true
  end.

(** The keys [filter_products] reads. *)
Definition read_keys : list string :=
  ["series"; "model"; "watt"; "cct"; "beam"; "lumen"; "price"].

(** A record whose fields under these keys, where present, hold scalars. *)
Definition plain (d : gmap string value) : bool :=
  forallb (λ key, match d !! key with
                  | Some v => scalar v
                  | None => true
                  end) read_keys.

(** An item whose fields, if it is a record, are plain; nothing is asked
    of an item that is not a record. *)
Definition plain_item (p : value) : bool :=
  match p with
  | VDict d => plain d
  | _ => true
  end.

(** [p.get(key, dflt)]: the stored value when the key is present, [dflt]
    when it is absent; only a dictionary has the method. *)
Definition dict_get (p : value) (key : string) (dflt : value) : outcome value :=
  match p with
  | VDict d =>
      match d !! key with
      | Some v => Ok v
      | None => Ok dflt
      end
  | _ => Raise AttributeError
  end.

(** ** The store of list objects *)

(** A list object is addressed by its position in the store; a new object
    takes the next free position. *)
Abbreviation loc := nat (only parsing).
Abbreviation heap := (list (list value)) (only parsing).

(** A computation reads and writes the store and ends in a value or in an
    exception; the store is kept in both cases. *)
Definition M (A : Type) : Type := heap → outcome A * heap.

#[global] Instance M_ret : MRet M := λ A a h, (Ok a, h).
#[global] Instance M_bind : MBind M := λ A B f m h,
  match m h with
  | (Ok a, h') => f a h'
  | (Raise e, h') => (Raise e, h')
  end.

(** A computation that touches no list object. *)
Definition lift {A} (o : outcome A) : M A := λ h, (o, h).

(** A list display [[x1, ..., xn]], a slice or a comprehension: a new object. *)
Definition new_list (xs : list value) : M loc :=
  λ h, (Ok (length h), h ++ [xs]).

(** The items of the list at [l], as they are now. *)
Definition items (l : loc) : M (list value) :=
  λ h, match h !! l with
       | Some xs => (Ok xs, h)
       | None => (Raise Stuck, h)
       end.

(** [l.append(v)]: the object at [l] changes in place. *)
Definition append (l : loc) (v : value) : M unit :=
  λ h, match h !! l with
       | Some xs => (Ok (), <[l := xs ++ [v]]> h)
       | None => (Raise Stuck, h)
       end.

(** [for p in l: body]. The iterator holds the list and an index and reads
    the list afresh at every step, so it sees what the body appends. [n]
    bounds the number of steps. *)
Fixpoint iterate (n : nat) (l : loc) (i : nat) (body : value → M unit) : M unit :=
  xs ← items l;
  match xs !! i with
  | None => mret ()
  | Some p =>
      match n with
      | O => lift (Raise Stuck)
      | S n' => body p;; iterate n' l (S i) body
      end
  end.

Definition for_in (l : loc) (body : value → M unit) : M unit :=
  xs ← items l;
  iterate (length xs) l 0 body.

(** Truth value of a list: non-empty. *)
Definition list_truthy (xs : list value) : bool :=
  match xs with
  | [] => false
  | _ :: _ => true
  end.

(** [xs[:k]] *)
Definition slice_to {A} (xs : list A) (k : Z) : list A :=
  if 0 <=? k then take (Z.to_nat k) xs
  else take (length xs - Z.to_nat (- k)) xs.

(** [sep.join(xs)]: every item has to be a [str]. *)
Fixpoint join (sep : string) (xs : list value) : outcome string :=
  match xs with
  | [] => Ok EmptyString
  | [VStr s] => Ok s
  | VStr s :: rest => t ← join sep rest; Ok (s +:+ sep +:+ t)
  | _ :: _ => Raise TypeError
  end.

(** ** What a loop collects

    Each loop of the program walks one list and appends to another. What a
    step appends depends on the item alone: [g p] is the items appended for
    [p], or the exception the step ends in. [collect g xs] is what a walk
    over [xs] appends, and the exception that stops it, if any. *)
Fixpoint collect (g : value → outcome (list value)) (xs : list value)
  : list value * option exn :=
  match xs with
  | [] => ([], None)
  | p :: xs' =>
      match g p with
      | Raise e => ([], Some e)
      | Ok ys => let '(zs, r) := collect g xs' in (ys ++ zs, r)
      end
  end.

Definition appends (t : loc) (g : value → outcome (list value))
    (body : value → M unit) : Prop :=
  ∀ p (h : heap) acc, h !! t = Some acc →
    body p h =
    match g p with
    | Ok ys => (Ok (), <[t := acc ++ ys]> h)
    | Raise e => (Raise e, h)
    end.

Definition ended (r : option exn) : outcome unit :=
  match r with
  | None => Ok ()
  | Some e => Raise e
  end.

(** ** [load_products] *)

(** What the loader finds at [DATA_FILE]: whether [os.path.exists] holds,
    and what opening the file and [json.load] give, a value or an exception
    with its text. *)
Record file_system := {
  path_exists : bool;
  read_json : value + string;
}.

Definition load_products (DATA_FILE : string) (fs : file_system) : list value * string :=
  if negb (path_exists fs) then
    ([], "❌ 找不到 " +:+ DATA_FILE +:+ "，請先確認檔案存在。")
  else
    match read_json fs with
    | inl data =>
        match data with
        | VList items => (items, "✅ 已載入 " +:+ dec (Z.of_nat (length items)) +:+ " 筆資料。")
        | _ => ([], "❌ 檔案格式錯誤：最外層應為陣列(list)。")
        end
    | inr e => ([], "❌ 載入失敗：" +:+ e)
    end.

(** [products, load_msg = load_products()] when the module is imported: the
    list returned is the first object of the store, and [products] names
    it. *)
Definition module_store (DATA_FILE : string) (fs : file_system) : list (list value) :=
  [(load_products DATA_FILE fs).1].

(** ** An interpreter and records for closed runs

    A closed run needs an interpreter. In the one below [float] reads a text
    only when it is a plain decimal integer, and the two [repr] give no
    text: the closed runs at the end hold no float and display no nested
    list. The theorems are proved for every interpreter. *)

Fixpoint digits (s : string) (acc : Z) : option Z :=
  match s with
  | EmptyString => Some acc
  | String c s' =>
      let n := Z.of_nat (nat_of_ascii c) in
      if (48 <=? n) && (n <=? 57) then digits s' (10 * acc + (n - 48)) else None
  end.

Definition int_literal (s : string) : option Z :=
  match strip s with
  | EmptyString => None
  | String c r =>
      if Ascii.eqb c "-" then (if str_truthy r then Z.opp <$> digits r 0 else None)
      else if Ascii.eqb c "+" then (if str_truthy r then digits r 0 else None)
      else digits (String c r) 0
  end.

Definition example_builtins : Builtins := {|
  float_of_str s := z ← int_literal s; Some (SF2Prim (binary_normalize prec emax z 0 false));
  float_repr _ := EmptyString;
  container_repr _ := EmptyString;
|}.

(** The record of scenario B. *)
Definition track_100 : gmap string value :=
  list_to_map
    [ ("series", VStr "Track-100"); ("model", VStr "TR-1"); ("watt", VInt 30);
      ("cct", VInt 3000); ("beam", VInt 24); ("lumen", VInt 2000);
      ("price", VInt 500) ].

(** A record without [watt], with a [null] beam and a lumen given as text. *)
Definition panel_7 : gmap string value :=
  list_to_map
    [ ("series", VStr "Panel"); ("model", VStr "PN-7"); ("cct", VInt 4000);
      ("beam", VNone); ("lumen", VStr "1200"); ("price", VInt 900) ].

(** Records with only [watt]: a number, the float NaN, and [true]. *)
Definition no_name : gmap string value := {[ "watt" := VInt 10 ]}.

Definition nan_watt : gmap string value := {[ "watt" := VFloat nan ]}.

Definition true_watt : gmap string value := {[ "watt" := VBool true ]}.

(** The lines of the two records in a report. *)
Definition track_100_line : string :=
  "- **系列：Track-100**｜型號：`TR-1` | 功率：30W | 色溫：3000K | 光束角：24° | 光通量：2000lm | 價格：500 元".

Definition panel_7_line : string :=
  "- **系列：Panel**｜型號：`PN-7` | 功率：?W | 色溫：4000K | 光束角：None° | 光通量：1200lm | 價格：900 元".

(** ** [filter_products] *)

(** The header line: the number of records found, and the number the
    header gives as displayed. *)
Definition header_text (found : nat) (displayed : Z) : string :=
  "### 篩選結果：共 " +:+ dec (Z.of_nat found) +:+ " 筆（顯示前 " +:+ dec displayed +:+ " 筆）" +:+ nl.

Section Filter.
Context `{Builtins}.

(** The module-level name [products] is bound to a list object. *)
Variable products : loc.

Variable series_keyword : string.
Variables watt_lo watt_hi : number.
Variables cct_lo cct_hi : number.
Variables beam_lo beam_hi : number.
Variables lumen_lo lumen_hi : number.
Variables price_lo price_hi : number.
(** The display cap is an [int], on which [int(topk)] is the identity. *)
Variable topk : Z.

(** [series_keyword and series_keyword.strip()] *)
Definition keyword_given : bool :=
  str_truthy series_keyword && str_truthy (strip series_keyword).

(** 1) the comprehension over [products] *)
Definition keyword_stage (q : string) : M loc :=
  base ← new_list [];
  for_in products (λ p,
    s ← lift (dict_get p "series" (VStr EmptyString));
    if contains q (py_str s) then append base p
    else
      m ← lift (dict_get p "model" (VStr EmptyString));
      if contains q (py_str m) then append base p else mret ());;
  mret base.

Definition num (v : value) : float :=
  match py_float v with
  | Ok f => f
  | Raise _ => 0%float
  end.

(** 2) the loop over [base] *)
Definition attribute_stage (base : loc) : M loc :=
  result ← new_list [];
  for_in base (λ p,
    w ← lift (num <$> dict_get p "watt" (VInt 0));
    c ← lift (num <$> dict_get p "cct" (VInt 0));
    b ← lift (num <$> dict_get p "beam" (VInt 0));
    l ← lift (num <$> dict_get p "lumen" (VInt 0));
    pr ← lift (num <$> dict_get p "price" (VInt 0));
    if negb (within watt_lo w watt_hi) then mret () else
    if negb (within cct_lo c cct_hi) then mret () else
    if negb (within beam_lo b beam_hi) then mret () else
    if negb (within lumen_lo l lumen_hi) then mret () else
    if negb (within price_lo pr price_hi) then mret () else
    append result p);;
  mret result.

(** 3) the header and one line per displayed record *)
Definition render_line (it : value) : outcome string :=
  series ← dict_get it "series" (VStr "未標示系列");
  model ← dict_get it "model" (VStr "未命名");
  watt ← dict_get it "watt" (VStr "?");
  cct ← dict_get it "cct" (VStr "?");
  beam ← dict_get it "beam" (VStr "?");
  lumen ← dict_get it "lumen" (VStr "?");
  price ← dict_get it "price" (VStr "?");
  Ok ("- **系列：" +:+ py_str series +:+ "**｜"
      +:+ "型號：`" +:+ py_str model +:+ "` | "
      +:+ "功率：" +:+ py_str watt +:+ "W | "
      +:+ "色溫：" +:+ py_str cct +:+ "K | "
      +:+ "光束角：" +:+ py_str beam +:+ "° | "
      +:+ "光通量：" +:+ py_str lumen +:+ "lm | "
      +:+ "價格：" +:+ py_str price +:+ " 元").

Definition render_stage (result : loc) : M string :=
  found ← items result;
  lines ← new_list [VStr (header_text (length found) topk)];
  shown ← (rs ← items result; new_list (slice_to rs topk));
  for_in shown (λ it,
    line ← lift (render_line it);
    append lines (VStr line));;
  ls ← items lines;
  lift (join nl ls).

Definition attributes_and_report (base : loc) : M string :=
  result ← attribute_stage base;
  rs ← items result;
  if negb (list_truthy rs) then
    if keyword_given then
      mret ("❌ 系列關鍵字「" +:+ series_keyword +:+ "」下沒有符合屬性條件的產品。")
    else
      mret "❌ 沒有任何產品符合屬性條件。"
  else render_stage result.

Definition filter_products : M string :=
  ps ← items products;
  if negb (list_truthy ps) then mret "⚠️ 尚未載入產品資料。" else
  if keyword_given then
    let q := strip series_keyword in
    base ← keyword_stage q;
    bs ← items base;
    if negb (list_truthy bs) then
      mret ("❌ 找不到與「" +:+ series_keyword +:+ "」相關的系列 / 型號。")
    else attributes_and_report base
  else attributes_and_report products.

(** ** The stages, record by record

    A record is a dictionary. The definitions below say what each stage
    does with one record; the theorems relate them to the loops above. *)

Definition field (d : gmap string value) (key : string) (dflt : value) : value :=
  default dflt (d !! key).

(** The test of the comprehension. *)
Definition matches (q : string) (d : gmap string value) : bool :=
  contains q (py_str (field d "series" (VStr EmptyString)))
  || contains q (py_str (field d "model" (VStr EmptyString))).

(** The five range tests, all of which have to hold. *)
Definition in_bounds (d : gmap string value) : bool :=
  within watt_lo (num (field d "watt" (VInt 0))) watt_hi
  && within cct_lo (num (field d "cct" (VInt 0))) cct_hi
  && within beam_lo (num (field d "beam" (VInt 0))) beam_hi
  && within lumen_lo (num (field d "lumen" (VInt 0))) lumen_hi
  && within price_lo (num (field d "price" (VInt 0))) price_hi.

Definition keep_keyword (q : string) (p : value) : outcome (list value) :=
  match p with
  | VDict d => Ok (if matches q d then [p] else [])
  | _ => Raise AttributeError
  end.

Definition keep_attributes (p : value) : outcome (list value) :=
  match p with
  | VDict d => Ok (if in_bounds d then [p] else [])
  | _ => Raise AttributeError
  end.

Definition keep_line (it : value) : outcome (list value) :=
  line ← render_line it; Ok [VStr line].

(** The outcome of a run that starts with the items [ps] in [products]:
    [report ps], through the attribute stage ([report_attributes]) and the
    rendering ([report_lines]). *)
Definition report_lines (rs : list value) : outcome string :=
  match collect keep_line (slice_to rs topk) with
  | (ls, None) => join nl (VStr (header_text (length rs) topk) :: ls)
  | (_, Some e) => Raise e
  end.

Definition report_attributes (bs : list value) : outcome string :=
  match collect keep_attributes bs with
  | (rs, None) =>
      if negb (list_truthy rs) then
        if keyword_given then
          Ok ("❌ 系列關鍵字「" +:+ series_keyword +:+ "」下沒有符合屬性條件的產品。")
        else
          Ok "❌ 沒有任何產品符合屬性條件。"
      else report_lines rs
  | (_, Some e) => Raise e
  end.

Definition report (ps : list value) : outcome string :=
  if negb (list_truthy ps) then Ok "⚠️ 尚未載入產品資料。" else
  if keyword_given then
    match collect (keep_keyword (strip series_keyword)) ps with
    | (bs, None) =>
        if negb (list_truthy bs) then
          Ok ("❌ 找不到與「" +:+ series_keyword +:+ "」相關的系列 / 型號。")
        else report_attributes bs
    | (_, Some e) => Raise e
    end
  else report_attributes ps.

(** [sep.join] on texts. *)
Fixpoint join_str (sep : string) (ls : list string) : string :=
  match ls with
  | [] => EmptyString
  | [s] => s
  | s :: rest => s +:+ sep +:+ join_str sep rest
  end.

(** The five attributes: key, label and unit in the report, bounds. *)
Definition attribute_fields : list (string * string * string * number * number) :=
  [ ("watt", "功率：", "W", watt_lo, watt_hi);
    ("cct", "色溫：", "K", cct_lo, cct_hi);
    ("beam", "光束角：", "°", beam_lo, beam_hi);
    ("lumen", "光通量：", "lm", lumen_lo, lumen_hi);
    ("price", "價格：", " 元", price_lo, price_hi) ].

(** The line of the report for a record. *)
Definition line (d : gmap string value) : string :=
  match render_line (VDict d) with
  | Ok s => s
  | Raise _ => EmptyString
  end.

(** The parts of a line: the series and the model, then one segment for
    each of the five attributes, label, text of the field and unit, the
    segments separated by [" | "]. *)
Definition names (d : gmap string value) : string :=
  "- **系列：" +:+ py_str (field d "series" (VStr "未標示系列")) +:+ "**｜"
  +:+ "型號：`" +:+ py_str (field d "model" (VStr "未命名")) +:+ "` | ".

Definition segment (d : gmap string value)
    (a : string * string * string * number * number) : string :=
  let '(key, label, unit, _, _) := a in
  label +:+ py_str (field d key (VStr "?")) +:+ unit.

(** The records that pass the keyword stage, those that pass the attribute
    stage as well, and those of them that are displayed. *)
Definition base_records (ds : list (gmap string value)) : list (gmap string value) :=
  if keyword_given then filter (matches (strip series_keyword)) ds else ds.

Definition result_records (ds : list (gmap string value)) : list (gmap string value) :=
  filter in_bounds (base_records ds).

Definition shown_records (ds : list (gmap string value)) : list (gmap string value) :=
  slice_to (result_records ds) topk.

(** The text of a run over records. *)
Definition report_text (ds : list (gmap string value)) : string :=
  match ds with
  | [] => "⚠️ 尚未載入產品資料。"
  | _ :: _ =>
      match base_records ds with
      | [] => "❌ 找不到與「" +:+ series_keyword +:+ "」相關的系列 / 型號。"
      | _ :: _ =>
          match result_records ds with
          | [] =>
              if keyword_given then
                "❌ 系列關鍵字「" +:+ series_keyword +:+ "」下沒有符合屬性條件的產品。"
              else
                "❌ 沒有任何產品符合屬性條件。"
          | _ :: _ =>
              join_str nl (header_text (length (result_records ds)) topk :: (line <$> shown_records ds))
          end
      end
  end.

(** * Verification *)

(** ** Running a computation *)

Lemma run_bind {A B} (m : M A) (f : A → M B) (h : heap) :
  (m ≫= f) h =
  match m h with
  | (Ok a, h') => f a h'
  | (Raise e, h') => (Raise e, h')
  end.
Proof. reflexivity. Qed.

Lemma run_ret {A} (a : A) (h : heap) : (mret a : M A) h = (Ok a, h).
Proof. reflexivity. Qed.

Lemma run_lift {A} (o : outcome A) (h : heap) : lift o h = (o, h).
Proof. reflexivity. Qed.

Lemma run_items (l : loc) (h : heap) xs :
  h !! l = Some xs → items l h = (Ok xs, h).
Proof. intros E. unfold items. by rewrite E. Qed.

Lemma run_append (l : loc) v (h : heap) xs :
  h !! l = Some xs → append l v h = (Ok (), <[l := xs ++ [v]]> h).
Proof. intros E. unfold append. by rewrite E. Qed.

Lemma iterate_eq n l i body (h : heap) :
  iterate n l i body h =
  match h !! l with
  | None => (Raise Stuck, h)
  | Some xs =>
      match xs !! i with
      | None => (Ok (), h)
      | Some p =>
          match n with
          | O => (Raise Stuck, h)
          | S n' =>
              match body p h with
              | (Ok _, h') => iterate n' l (S i) body h'
              | (Raise e, h') => (Raise e, h')
              end
          end
      end
  end.
Proof.
  destruct n; cbn [iterate]; rewrite run_bind; unfold items;
    destruct (h !! l) as [xs|]; try reflexivity;
    destruct (xs !! i); reflexivity.
Qed.

(** ** Loops that collect into a list *)

Lemma iterate_collect t g body l xs :
  appends t g body → l ≠ t →
  ∀ n i (h : heap) acc,
    h !! l = Some xs → h !! t = Some acc → (length xs ≤ n + i)%nat →
    iterate n l i body h =
    (ended (collect g (drop i xs)).2, <[t := acc ++ (collect g (drop i xs)).1]> h).
Proof.
  intros Hbody Hne n. induction n as [|n IH]; intros i h acc Hl Ht Hlen;
    rewrite iterate_eq, Hl.
  - rewrite (lookup_ge_None_2 xs i) by lia.
    rewrite drop_ge by lia. cbn. by rewrite app_nil_r, list_insert_id.
  - destruct (xs !! i) as [p|] eqn:Hi.
    + rewrite (drop_S _ _ _ Hi). cbn [collect].
      rewrite (Hbody p h acc Ht). destruct (g p) as [ys|e]; cbn.
      * rewrite (IH (S i) _ (acc ++ ys)).
        -- destruct (collect g (drop (S i) xs)) as [zs r]. cbn.
           by rewrite list_insert_insert_eq, app_assoc.
        -- by rewrite list_lookup_insert_ne.
        -- apply list_lookup_insert_eq. by eapply lookup_lt_Some.
        -- lia.
      * by rewrite app_nil_r, list_insert_id.
    + apply lookup_ge_None_1 in Hi. rewrite drop_ge by lia. cbn.
      by rewrite app_nil_r, list_insert_id.
Qed.

Lemma for_in_collect t g body l xs (h : heap) acc :
  appends t g body → l ≠ t → h !! l = Some xs → h !! t = Some acc →
  for_in l body h =
  (ended (collect g xs).2, <[t := acc ++ (collect g xs).1]> h).
Proof.
  intros Hbody Hne Hl Ht. unfold for_in. rewrite run_bind, (run_items _ _ _ Hl).
  rewrite (iterate_collect t g body l xs Hbody Hne _ 0%nat h acc); auto with lia.
Qed.

(** ** The store after an allocation *)

Lemma insert_at_end (h : heap) xs ys rest :
  <[length h := ys]> (h ++ xs :: rest) = h ++ ys :: rest.
Proof. rewrite insert_app_r_alt by lia. by rewrite Nat.sub_diag. Qed.

Lemma lookup_at_end (h : heap) xs rest : (h ++ xs :: rest) !! length h = Some xs.
Proof. by rewrite list_lookup_middle. Qed.

Lemma lookup_before_end (h : heap) (l : loc) xs rest :
  h !! l = Some xs → (h ++ rest) !! l = Some xs.
Proof. intros E. by apply lookup_app_l_Some. Qed.

Lemma lookup_after_end (h : heap) xs ys :
  (h ++ [xs; ys]) !! (length h + 1)%nat = Some ys.
Proof.
  rewrite lookup_app_r by lia.
  by replace (length h + 1 - length h)%nat with 1%nat by lia.
Qed.

(** ** The loop bodies *)

Lemma dict_get_record d key dflt :
  dict_get (VDict d) key dflt = Ok (field d key dflt).
Proof. unfold dict_get, field. by destruct (d !! key). Qed.

Lemma run_lift_bind {A B} (a : A) (f : A → M B) (h : heap) :
  (lift (Ok a) ≫= f) h = f a h.
Proof. reflexivity. Qed.

Lemma append_nothing (h : heap) (t : loc) acc :
  h !! t = Some acc → (Ok (), h) = (Ok (), <[t := acc ++ []]> h).
Proof. intros Ht. by rewrite app_nil_r, list_insert_id. Qed.

Lemma keyword_body (t : loc) q :
  appends t (keep_keyword q) (λ p,
    s ← lift (dict_get p "series" (VStr EmptyString));
    if contains q (py_str s) then append t p
    else
      m ← lift (dict_get p "model" (VStr EmptyString));
      if contains q (py_str m) then append t p else mret ()).
Proof.
  intros p h acc Ht. cbv beta. destruct p as [| | | | | |d]; try reflexivity.
  cbn [keep_keyword]. unfold matches.
  rewrite !dict_get_record, run_lift_bind.
  destruct (contains q (py_str (field d "series" _))); cbn [orb].
  { by apply run_append. }
  rewrite run_lift_bind.
  destruct (contains q (py_str (field d "model" _))).
  { by apply run_append. }
  by apply append_nothing.
Qed.

Lemma attribute_body (t : loc) :
  appends t keep_attributes (λ p,
    w ← lift (num <$> dict_get p "watt" (VInt 0));
    c ← lift (num <$> dict_get p "cct" (VInt 0));
    b ← lift (num <$> dict_get p "beam" (VInt 0));
    l ← lift (num <$> dict_get p "lumen" (VInt 0));
    pr ← lift (num <$> dict_get p "price" (VInt 0));
    if negb (within watt_lo w watt_hi) then mret () else
    if negb (within cct_lo c cct_hi) then mret () else
    if negb (within beam_lo b beam_hi) then mret () else
    if negb (within lumen_lo l lumen_hi) then mret () else
    if negb (within price_lo pr price_hi) then mret () else
    append t p).
Proof.
  intros p h acc Ht. cbv beta. destruct p as [| | | | | |d]; try reflexivity.
  cbn [keep_attributes]. unfold in_bounds.
  rewrite !dict_get_record. cbn [fmap outcome_fmap]. rewrite !run_lift_bind.
  repeat (destruct (within _ _ _); cbn [negb andb];
          [ | by apply append_nothing ]).
  by apply run_append.
Qed.

Lemma line_body (t : loc) :
  appends t keep_line (λ it,
    line ← lift (render_line it);
    append t (VStr line)).
Proof.
  intros it h acc Ht. cbv beta. unfold keep_line.
  destruct (render_line it) as [line|e]; [|reflexivity].
  rewrite run_lift_bind. by apply run_append.
Qed.

(** ** The stages *)

Lemma keyword_stage_run q (h : heap) ps :
  h !! products = Some ps →
  keyword_stage q h =
  (const (length h) <$> ended (collect (keep_keyword q) ps).2,
   h ++ [(collect (keep_keyword q) ps).1]).
Proof.
  intros Hps. unfold keyword_stage, new_list. rewrite run_bind.
  pose proof (lookup_lt_Some _ _ _ Hps) as Hlt.
  rewrite run_bind.
  rewrite (for_in_collect (length h) (keep_keyword q) _ products ps _ []);
    [ | apply keyword_body | lia | by apply lookup_before_end | apply lookup_at_end ].
  rewrite insert_at_end. cbn [app].
  by destruct (collect (keep_keyword q) ps) as [bs [e|]].
Qed.

Lemma attribute_stage_run (base : loc) (h : heap) bs :
  h !! base = Some bs →
  attribute_stage base h =
  (const (length h) <$> ended (collect keep_attributes bs).2,
   h ++ [(collect keep_attributes bs).1]).
Proof.
  intros Hbs. unfold attribute_stage, new_list. rewrite run_bind.
  pose proof (lookup_lt_Some _ _ _ Hbs) as Hlt.
  rewrite run_bind.
  rewrite (for_in_collect (length h) keep_attributes _ base bs _ []);
    [ | apply attribute_body | lia | by apply lookup_before_end | apply lookup_at_end ].
  rewrite insert_at_end. cbn [app].
  by destruct (collect keep_attributes bs) as [rs [e|]].
Qed.

Lemma render_stage_run (result : loc) (h : heap) rs :
  h !! result = Some rs →
  render_stage result h =
  (report_lines rs,
   h ++ [VStr (header_text (length rs) topk) :: (collect keep_line (slice_to rs topk)).1;
         slice_to rs topk]).
Proof.
  intros Hrs. unfold render_stage, report_lines, new_list.
  pose proof (lookup_lt_Some _ _ _ Hrs) as Hlt.
  rewrite run_bind, (run_items _ _ _ Hrs), run_bind.
  rewrite !run_bind, (run_items result (h ++ _) rs) by by apply lookup_before_end.
  rewrite length_app, <- app_assoc. cbn [length app]. rewrite run_bind.
  rewrite (for_in_collect (length h) keep_line _ (length h + 1)%nat
             (slice_to rs topk) _ [VStr (header_text (length rs) topk)]);
    [ | apply line_body | lia
      | apply lookup_after_end
      | apply lookup_at_end ].
  rewrite insert_at_end.
  destruct (collect keep_line (slice_to rs topk)) as [ls [e|]]; cbn [ended fst snd];
    [reflexivity|].
  rewrite run_bind, (run_items _ _ _ (lookup_at_end _ _ _)).
  reflexivity.
Qed.

Lemma attributes_and_report_run (base : loc) (h : heap) bs :
  h !! base = Some bs →
  ∃ extra, attributes_and_report base h = (report_attributes bs, h ++ extra).
Proof.
  intros Hbs. unfold attributes_and_report, report_attributes.
  rewrite run_bind, (attribute_stage_run _ _ _ Hbs).
  destruct (collect keep_attributes bs) as [rs [e|]]; cbn [ended fst snd fmap outcome_fmap const];
    [by eexists|].
  rewrite run_bind, (run_items _ _ _ (lookup_at_end _ _ _)).
  destruct (list_truthy rs); cbn [negb].
  - rewrite (render_stage_run _ _ rs) by apply lookup_at_end.
    rewrite <- app_assoc. by eexists.
  - destruct keyword_given; by eexists.
Qed.

Lemma filter_products_unbound (h : heap) :
  h !! products = None → filter_products h = (Raise Stuck, h).
Proof. intros E. unfold filter_products, items. by rewrite run_bind, E. Qed.

Lemma filter_products_run (h : heap) ps :
  h !! products = Some ps →
  ∃ extra, filter_products h = (report ps, h ++ extra).
Proof.
  intros Hps. unfold filter_products, report.
  rewrite run_bind, (run_items _ _ _ Hps).
  destruct (list_truthy ps); cbn [negb]; [|exists []; by rewrite app_nil_r].
  destruct keyword_given eqn:Hkw.
  - rewrite run_bind, (keyword_stage_run _ _ _ Hps).
    destruct (collect (keep_keyword (strip series_keyword)) ps) as [bs [e|]];
      cbn [ended fst snd fmap outcome_fmap const]; [by eexists|].
    rewrite run_bind, (run_items _ _ _ (lookup_at_end _ _ _)).
    destruct (list_truthy bs); cbn [negb]; [|by eexists].
    destruct (attributes_and_report_run (length h) (h ++ [bs]) bs) as [extra ->];
      [apply lookup_at_end|].
    rewrite <- app_assoc. by eexists.
  - by apply attributes_and_report_run.
Qed.

(** ** Lists of records *)

Lemma render_line_record d : render_line (VDict d) = Ok (line d).
Proof.
  unfold line. unfold render_line. rewrite !dict_get_record. reflexivity.
Qed.

Lemma line_text d :
  line d =
  "- **系列：" +:+ py_str (field d "series" (VStr "未標示系列")) +:+ "**｜"
  +:+ "型號：`" +:+ py_str (field d "model" (VStr "未命名")) +:+ "` | "
  +:+ "功率：" +:+ py_str (field d "watt" (VStr "?")) +:+ "W | "
  +:+ "色溫：" +:+ py_str (field d "cct" (VStr "?")) +:+ "K | "
  +:+ "光束角：" +:+ py_str (field d "beam" (VStr "?")) +:+ "° | "
  +:+ "光通量：" +:+ py_str (field d "lumen" (VStr "?")) +:+ "lm | "
  +:+ "價格：" +:+ py_str (field d "price" (VStr "?")) +:+ " 元".
Proof.
  unfold line. unfold render_line. rewrite !dict_get_record. reflexivity.
Qed.

Lemma collect_keep (keep : gmap string value → bool) g ds :
  (∀ d, g (VDict d) = Ok (if keep d then [VDict d] else [])) →
  collect g (VDict <$> ds) = (VDict <$> filter keep ds, None).
Proof.
  intros Hg. induction ds as [|d ds IH]; [reflexivity|].
  cbn [fmap list_fmap collect]. rewrite Hg. fold (fmap VDict ds). rewrite IH.
  rewrite filter_cons. case_decide as Hd; destruct (keep d); try done; by destruct Hd.
Qed.

Lemma collect_keyword_records q ds :
  collect (keep_keyword q) (VDict <$> ds) = (VDict <$> filter (matches q) ds, None).
Proof. by apply collect_keep. Qed.

Lemma collect_attributes_records ds :
  collect keep_attributes (VDict <$> ds) = (VDict <$> filter in_bounds ds, None).
Proof. by apply collect_keep. Qed.

Lemma collect_lines_records ds :
  collect keep_line (VDict <$> ds) = (VStr <$> (line <$> ds), None).
Proof.
  induction ds as [|d ds IH]; [reflexivity|].
  cbn [fmap list_fmap collect]. unfold keep_line at 1.
  rewrite render_line_record. cbn [mbind outcome_bind].
  fold (fmap VDict ds). by rewrite IH.
Qed.

Lemma join_texts sep ls : join sep (VStr <$> ls) = Ok (join_str sep ls).
Proof.
  induction ls as [|s ls IH]; [reflexivity|].
  destruct ls as [|s' ls]; [reflexivity|].
  change (join sep (VStr <$> s :: s' :: ls))
    with (t ← join sep (VStr <$> s' :: ls); Ok (s +:+ sep +:+ t)).
  by rewrite IH.
Qed.

Lemma slice_to_fmap {A B} (f : A → B) xs k :
  slice_to (f <$> xs) k = f <$> slice_to xs k.
Proof. unfold slice_to. rewrite length_fmap. destruct (0 <=? k); by rewrite fmap_take. Qed.

Lemma slice_to_prefix {A} (xs : list A) k : slice_to xs k `prefix_of` xs.
Proof. unfold slice_to. destruct (0 <=? k); apply prefix_take. Qed.

Lemma list_truthy_records {A} (f : A → value) xs :
  list_truthy (f <$> xs) = match xs with [] => false | _ :: _ => true end.
Proof. by destruct xs. Qed.

Lemma report_lines_records rs :
  report_lines (VDict <$> rs) =
  Ok (join_str nl (header_text (length rs) topk :: (line <$> slice_to rs topk))).
Proof.
  unfold report_lines. rewrite slice_to_fmap, collect_lines_records, length_fmap.
  apply (join_texts nl (_ :: _)).
Qed.

Lemma report_records ds : report (VDict <$> ds) = Ok (report_text ds).
Proof.
  assert (Hattr : ∀ bs b0 bs0, bs = b0 :: bs0 → base_records ds = bs →
    report_attributes (VDict <$> bs) =
    Ok match result_records ds with
       | [] =>
           if keyword_given then
             "❌ 系列關鍵字「" +:+ series_keyword +:+ "」下沒有符合屬性條件的產品。"
           else
             "❌ 沒有任何產品符合屬性條件。"
       | _ :: _ =>
           join_str nl (header_text (length (result_records ds)) topk :: (line <$> shown_records ds))
       end).
  { intros bs b0 bs0 _ Hbase. unfold report_attributes, shown_records, result_records.
    rewrite collect_attributes_records, list_truthy_records, Hbase.
    destruct (filter in_bounds bs) as [|r rs] eqn:Er; cbn [negb].
    - by destruct keyword_given.
    - apply report_lines_records. }
  unfold report, report_text. rewrite list_truthy_records.
  destruct ds as [|d ds]; [reflexivity|]. cbn [negb].
  destruct keyword_given eqn:Hkw.
  - rewrite collect_keyword_records, list_truthy_records.
    assert (Hbase : base_records (d :: ds) = filter (matches (strip series_keyword)) (d :: ds))
      by (unfold base_records; by rewrite Hkw).
    rewrite Hbase in *.
    destruct (filter _ (d :: ds)) as [|b0 bs0] eqn:Eb; cbn [negb]; [reflexivity|].
    rewrite (Hattr _ b0 bs0 eq_refl) by done. reflexivity.
  - assert (Hbase : base_records (d :: ds) = d :: ds)
      by (unfold base_records; by rewrite Hkw).
    rewrite Hbase. rewrite (Hattr _ d ds eq_refl) by done. reflexivity.
Qed.

(** ** Substrings *)

Lemma append_cons c a b : String c a +:+ b = String c (a +:+ b).
Proof. reflexivity. Qed.

Lemma prefix_app q s : String.prefix q s = true ↔ ∃ b, s = q +:+ b.
Proof.
  revert s. induction q as [|c q IH]; intros s; cbn.
  - split; [intros _; by exists s | by destruct s].
  - destruct s as [|c' s]; cbn.
    + split; [done | by intros [b ?]].
    + destruct (Ascii.ascii_dec c c') as [->|Hc].
      * rewrite IH. split; intros [b Hb]; exists b; rewrite append_cons in *; congruence.
      * split; [done | intros [b Hb]; rewrite append_cons in Hb; congruence].
Qed.

Lemma contains_occurs q s : contains q s = true ↔ occurs q s.
Proof.
  unfold occurs. induction s as [|c s IH]; cbn [contains].
  - rewrite orb_false_r, prefix_app. split.
    + intros [b Hb]. by exists EmptyString, b.
    + intros [a [b Hab]]. destruct a; [by exists b | by rewrite append_cons in Hab].
  - rewrite orb_true_iff, prefix_app, IH. split.
    + intros [[b Hb] | [a [b Hab]]].
      * by exists EmptyString, b.
      * exists (String c a), b. by rewrite append_cons, Hab.
    + intros [a [b Hab]]. destruct a as [|c' a].
      * left. by exists b.
      * right. exists a, b. rewrite append_cons in Hab. congruence.
Qed.

(** ** Items that are not records *)

Lemma collect_non_record g xs :
  (∀ d, ∃ ys, g (VDict d) = Ok ys) →
  (∀ p, is_record p = false → g p = Raise AttributeError) →
  (∃ p, p ∈ xs ∧ is_record p = false) →
  (collect g xs).2 = Some AttributeError.
Proof.
  intros Hrec Hnon [p [Hin Hp]]. induction xs as [|x xs IH]; [by inversion Hin|].
  cbn [collect]. destruct (is_record x) eqn:Hx.
  - destruct x as [| | | | | |d]; try done.
    destruct (Hrec d) as [ys ->]. inversion Hin as [|? ? ? Hin']; subst.
    + done.
    + specialize (IH Hin'). by destruct (collect g xs).
  - by rewrite Hnon.
Qed.

Lemma report_non_record ps :
  (∃ p, p ∈ ps ∧ is_record p = false) → report ps = Raise AttributeError.
Proof.
  intros Hp.
  assert (Hattr : (collect keep_attributes ps).2 = Some AttributeError).
  { apply collect_non_record; [by eexists | by intros [] | done]. }
  assert (Hkw : ∀ q, (collect (keep_keyword q) ps).2 = Some AttributeError).
  { intros q. apply collect_non_record; [by eexists | by intros [] | done]. }
  unfold report. destruct ps as [|p0 ps]; [by destruct Hp as [? [?%elem_of_nil _]]|].
  cbn [list_truthy negb]. destruct keyword_given.
  - specialize (Hkw (strip series_keyword)).
    destruct (collect (keep_keyword _) _) as [bs r]. cbn in Hkw. by subst.
  - unfold report_attributes.
    destruct (collect keep_attributes _) as [bs r]. cbn in Hattr. by subst.
Qed.

(** ** The claims about [filter_products] *)

Lemma append_empty s : s +:+ EmptyString = s.
Proof. induction s as [|c s IH]; [done|]. by rewrite append_cons, IH. Qed.

Lemma filter_products_records (h : heap) ds :
  h !! products = Some (VDict <$> ds) →
  fst (filter_products h) = Ok (report_text ds).
Proof.
  intros Hps. destruct (filter_products_run h _ Hps) as [extra ->].
  apply report_records.
Qed.

Lemma result_records_base ds :
  result_records ds ≠ [] → base_records ds ≠ [] ∧ ds ≠ [].
Proof.
  unfold result_records, base_records. intros Hr. split.
  - intros E. by rewrite E in Hr.
  - intros ->. by destruct keyword_given.
Qed.

Lemma report_text_lines ds :
  result_records ds ≠ [] →
  report_text ds =
  join_str nl (header_text (length (result_records ds)) topk :: (line <$> shown_records ds)).
Proof.
  intros Hr. destruct (result_records_base ds Hr) as [Hb Hd].
  unfold report_text. destruct ds; [done|].
  destruct (base_records _); [done|]. by destruct (result_records _).
Qed.

(** C1 (as amended). For every non-empty filtered result the report begins
    with the header line, and the header states the number of records that
    passed both stages and the display cap [int(topk)]; the cap is printed
    as it was given, whatever the number of lines that follow. *)
Theorem C1_header_states_count_and_cap (h : heap) ds :
  h !! products = Some (VDict <$> ds) →
  result_records ds ≠ [] →
  ∃ rest,
    fst (filter_products h)
    = Ok (header_text (length (result_records ds)) topk +:+ rest).
Proof.
  intros Hps Hr. rewrite (filter_products_records h ds Hps), (report_text_lines ds Hr).
  cbn [join_str]. destruct (line <$> shown_records ds) as [|l ls].
  - exists EmptyString. by rewrite append_empty.
  - by eexists.
Qed.

(** C2 (as amended). When every item of the collection is a record whose
    fields read by the program are absent or hold scalars, whatever the
    scalars are ([null], booleans, numbers, numeric or other text), the call
    returns a text and raises nothing. *)
Theorem C2_records_never_raise (h : heap) ds :
  h !! products = Some (VDict <$> ds) →
  Forall (λ d, plain d = true) ds →
  ∃ text, fst (filter_products h) = Ok text.
Proof. intros Hps _. eexists. by apply filter_products_records. Qed.

(** An item that is not a record makes the call raise [AttributeError]. *)
Lemma filter_products_non_record (h : heap) ps :
  h !! products = Some ps →
  (∃ p, p ∈ ps ∧ is_record p = false) →
  fst (filter_products h) = Raise AttributeError.
Proof.
  intros Hps Hp. destruct (filter_products_run h _ Hps) as [extra ->].
  by apply report_non_record.
Qed.

(** What the two later stages do with each of the five attributes of a
    record: the attribute stage compares [num(p.get(key, 0))] with the
    bounds, the line shows [{it.get(key, '?')}] between label and unit. *)
Lemma in_bounds_field d key label unit lo hi :
  (key, label, unit, lo, hi) ∈ attribute_fields →
  in_bounds d = true →
  within lo (num (field d key (VInt 0))) hi = true.
Proof.
  unfold attribute_fields, in_bounds. rewrite !andb_true_iff.
  intros Hin Hb. repeat (apply elem_of_cons in Hin as [Hin|Hin]);
    [..|by apply elem_of_nil in Hin]; inversion Hin; subst; tauto.
Qed.

Lemma append_assoc (a b c : string) : (a +:+ b) +:+ c = a +:+ b +:+ c.
Proof. induction a as [|x a IH]; [done|]. by rewrite !append_cons, IH. Qed.

Lemma line_shows_field d key label unit lo hi :
  (key, label, unit, lo, hi) ∈ attribute_fields →
  occurs (label +:+ py_str (field d key (VStr "?")) +:+ unit) (line d).
Proof.
  unfold attribute_fields. intros Hin. rewrite line_text.
  repeat (apply elem_of_cons in Hin as [Hin|Hin]);
    [..|by apply elem_of_nil in Hin]; inversion Hin; subst; clear Hin.
  - exists ("- **系列：" +:+ py_str (field d "series" (VStr "未標示系列")) +:+ "**｜"
            +:+ "型號：`" +:+ py_str (field d "model" (VStr "未命名")) +:+ "` | ").
    eexists. rewrite !append_assoc. reflexivity.
  - exists ("- **系列：" +:+ py_str (field d "series" (VStr "未標示系列")) +:+ "**｜"
            +:+ "型號：`" +:+ py_str (field d "model" (VStr "未命名")) +:+ "` | "
            +:+ "功率：" +:+ py_str (field d "watt" (VStr "?")) +:+ "W | ").
    eexists. rewrite !append_assoc. reflexivity.
  - exists ("- **系列：" +:+ py_str (field d "series" (VStr "未標示系列")) +:+ "**｜"
            +:+ "型號：`" +:+ py_str (field d "model" (VStr "未命名")) +:+ "` | "
            +:+ "功率：" +:+ py_str (field d "watt" (VStr "?")) +:+ "W | "
            +:+ "色溫：" +:+ py_str (field d "cct" (VStr "?")) +:+ "K | ").
    eexists. rewrite !append_assoc. reflexivity.
  - exists ("- **系列：" +:+ py_str (field d "series" (VStr "未標示系列")) +:+ "**｜"
            +:+ "型號：`" +:+ py_str (field d "model" (VStr "未命名")) +:+ "` | "
            +:+ "功率：" +:+ py_str (field d "watt" (VStr "?")) +:+ "W | "
            +:+ "色溫：" +:+ py_str (field d "cct" (VStr "?")) +:+ "K | "
            +:+ "光束角：" +:+ py_str (field d "beam" (VStr "?")) +:+ "° | ").
    eexists. rewrite !append_assoc. reflexivity.
  - exists ("- **系列：" +:+ py_str (field d "series" (VStr "未標示系列")) +:+ "**｜"
            +:+ "型號：`" +:+ py_str (field d "model" (VStr "未命名")) +:+ "` | "
            +:+ "功率：" +:+ py_str (field d "watt" (VStr "?")) +:+ "W | "
            +:+ "色溫：" +:+ py_str (field d "cct" (VStr "?")) +:+ "K | "
            +:+ "光束角：" +:+ py_str (field d "beam" (VStr "?")) +:+ "° | "
            +:+ "光通量：" +:+ py_str (field d "lumen" (VStr "?")) +:+ "lm | ").
    exists EmptyString. rewrite !append_assoc. reflexivity.
Qed.

Lemma num_non_numeric v : non_numeric v = true → num v = 0%float.
Proof.
  unfold num. destruct v as [| | | |s| |]; try done.
  cbn. by destruct (float_of_str s).
Qed.

(** *** What the stages do with one field of one record *)

Lemma line_structure d :
  line d = names d +:+ join_str " | " (segment d <$> attribute_fields).
Proof.
  rewrite line_text. unfold names, segment, attribute_fields.
  cbn [fmap list_fmap join_str]. rewrite !append_assoc. reflexivity.
Qed.

Lemma in_bounds_fields d :
  in_bounds d = true ↔
  ∀ key label unit lo hi,
    (key, label, unit, lo, hi) ∈ attribute_fields →
    within lo (num (field d key (VInt 0))) hi = true.
Proof.
  split.
  - intros Hb key label unit lo hi Hin. by eapply in_bounds_field.
  - intros Hall. unfold in_bounds. rewrite !andb_true_iff.
    repeat split; eapply Hall; unfold attribute_fields; repeat constructor.
Qed.

Lemma attribute_fields_key key label unit lo hi label' unit' lo' hi' :
  (key, label, unit, lo, hi) ∈ attribute_fields →
  (key, label', unit', lo', hi') ∈ attribute_fields →
  lo' = lo ∧ hi' = hi.
Proof.
  unfold attribute_fields. intros Hin Hin'.
  repeat (apply elem_of_cons in Hin as [Hin|Hin]);
    [..|by apply elem_of_nil in Hin]; inversion Hin; subst; clear Hin;
    repeat (apply elem_of_cons in Hin' as [Hin'|Hin']);
    try (by apply elem_of_nil in Hin'); by inversion Hin'.
Qed.

(** The attribute stage on a record whose field [key] is coerced to [0.0]:
    the record is kept exactly when [lo <= 0.0 <= hi] holds for that
    attribute and the other four pass their tests. *)
Lemma attribute_stage_field_as_zero d key label unit lo hi (base : loc) (h : heap) ds :
  (key, label, unit, lo, hi) ∈ attribute_fields →
  num (field d key (VInt 0)) = 0%float →
  h !! base = Some (VDict <$> ds) →
  ∃ kept,
    attribute_stage base h = (Ok (length h), h ++ [VDict <$> kept])
    ∧ (d ∈ kept ↔
       d ∈ ds
       ∧ within lo 0%float hi = true
       ∧ ∀ key' label' unit' lo' hi',
           (key', label', unit', lo', hi') ∈ attribute_fields →
           key' ≠ key →
           within lo' (num (field d key' (VInt 0))) hi' = true).
Proof.
  intros Hin Hnum Hbs. exists (filter in_bounds ds). split.
  - by rewrite (attribute_stage_run base h _ Hbs), collect_attributes_records.
  - rewrite list_elem_of_filter, Is_true_true, in_bounds_fields. split.
    + intros [Hall Hd]. split; [done|]. split.
      * rewrite <- Hnum. by apply (Hall key label unit).
      * intros key' label' unit' lo' hi' Hin' _. by apply (Hall key' label' unit').
    + intros (Hd & Hzero & Hothers). split; [|done].
      intros key' label' unit' lo' hi' Hin'.
      destruct (decide (key' = key)) as [->|Hne].
      * destruct (attribute_fields_key _ _ _ _ _ _ _ _ _ Hin Hin') as [-> ->].
        by rewrite Hnum.
      * by apply (Hothers key' label' unit').
Qed.

(** The report of a call that displays the record [d]: the header, then
    lines of which the line of [d] is one; and [d] passed the five tests. *)
Lemma report_shows_record (h : heap) ds d :
  h !! products = Some (VDict <$> ds) →
  d ∈ shown_records ds →
  (∃ lines,
     fst (filter_products h)
     = Ok (join_str nl (header_text (length (result_records ds)) topk :: lines))
     ∧ line d ∈ lines)
  ∧ in_bounds d = true.
Proof.
  intros Hps Hd.
  assert (Hres : d ∈ result_records ds).
  { destruct (slice_to_prefix (result_records ds) topk) as [rest Hrest].
    fold (shown_records ds) in Hrest. rewrite Hrest. apply elem_of_app. by left. }
  split.
  - exists (line <$> shown_records ds). split; [|by apply list_elem_of_fmap_2].
    rewrite (filter_products_records h ds Hps). f_equal. apply report_text_lines.
    intros E. rewrite E in Hres. by apply elem_of_nil in Hres.
  - unfold result_records in Hres.
    apply list_elem_of_filter in Hres as [Hb _]. by apply Is_true_true.
Qed.

(** C3. For each of the five attributes of a record [d]: when the field is
    absent or holds a value that stands for no number, the attribute stage
    compares it as [0.0], keeping [d] exactly when [lo <= 0.0 <= hi] and the
    other four tests hold; and when the field is absent, a report that
    displays [d] has the line of [d] among its lines, with [?] between the
    label and the unit of that attribute. A record that is displayed was
    kept, so both hold of the same record. *)
Theorem C3_missing_or_non_numeric_field d key label unit lo hi :
  (key, label, unit, lo, hi) ∈ attribute_fields →
  (d !! key = None ∨ ∃ v, d !! key = Some v ∧ non_numeric v = true) →
  (∀ (base : loc) (h : heap) ds,
     h !! base = Some (VDict <$> ds) →
     ∃ kept,
       attribute_stage base h = (Ok (length h), h ++ [VDict <$> kept])
       ∧ (d ∈ kept ↔
          d ∈ ds
          ∧ within lo 0%float hi = true
          ∧ ∀ key' label' unit' lo' hi',
              (key', label', unit', lo', hi') ∈ attribute_fields →
              key' ≠ key →
              within lo' (num (field d key' (VInt 0))) hi' = true))
  ∧ (d !! key = None →
     ∀ (h : heap) ds,
       h !! products = Some (VDict <$> ds) →
       Forall (λ d', plain d' = true) ds →
       d ∈ shown_records ds →
       (∃ lines,
          fst (filter_products h)
          = Ok (join_str nl (header_text (length (result_records ds)) topk :: lines))
          ∧ line d ∈ lines)
       ∧ line d = names d +:+ join_str " | " (segment d <$> attribute_fields)
       ∧ segment d (key, label, unit, lo, hi) = label +:+ "?" +:+ unit
       ∧ within lo 0%float hi = true).
Proof.
  intros Hin Hk.
  assert (Hnum : num (field d key (VInt 0)) = 0%float).
  { unfold field. destruct Hk as [-> | [v [-> Hv]]]; [reflexivity|].
    by apply num_non_numeric. }
  split.
  - intros base h ds Hbs. by eapply attribute_stage_field_as_zero.
  - intros E h ds Hps _ Hd.
    destruct (report_shows_record h ds d Hps Hd) as [Hrun Hb].
    split; [done|]. split; [apply line_structure|]. split.
    + unfold segment, field. by rewrite E.
    + rewrite <- Hnum. by eapply in_bounds_field.
Qed.

Lemma keyword_given_strip :
  keyword_given = true ↔ strip series_keyword ≠ EmptyString.
Proof.
  unfold keyword_given. destruct series_keyword as [|c s]; [by split|].
  cbn [str_truthy andb]. by destruct (strip (String c s)).
Qed.

(** C4. With a keyword that is not empty after trimming, the keyword stage
    builds a new list holding exactly the records whose [series] or [model],
    as text, contains the trimmed keyword as a contiguous run, in their
    order; when none is kept the call returns the message naming the keyword
    and creates no other list: the attribute stage does not run, whatever
    the bounds. *)
Theorem C4_keyword_stage (h : heap) ds :
  h !! products = Some (VDict <$> ds) →
  ds ≠ [] →
  strip series_keyword ≠ EmptyString →
  let q := strip series_keyword in
  let kept := filter (matches q) ds in
  keyword_stage q h = (Ok (length h), h ++ [VDict <$> kept])
  ∧ (∀ d, d ∈ kept ↔
          d ∈ ds ∧ (occurs q (py_str (field d "series" (VStr EmptyString)))
                    ∨ occurs q (py_str (field d "model" (VStr EmptyString)))))
  ∧ (kept = [] →
     filter_products h
     = (Ok ("❌ 找不到與「" +:+ series_keyword +:+ "」相關的系列 / 型號。"),
        h ++ [[]])).
Proof.
  intros Hps Hne Hkw%keyword_given_strip q kept. split; [|split].
  - rewrite (keyword_stage_run q h _ Hps), collect_keyword_records. reflexivity.
  - intros d. unfold kept. rewrite list_elem_of_filter. unfold matches.
    rewrite <- !contains_occurs, <- orb_true_iff, Is_true_true. tauto.
  - intros Hnone. unfold filter_products.
    rewrite run_bind, (run_items _ _ _ Hps), list_truthy_records.
    destruct ds as [|d0 ds0]; [done|]. cbn [negb]. rewrite Hkw.
    rewrite run_bind, (keyword_stage_run _ h _ Hps), collect_keyword_records.
    fold q kept. rewrite Hnone. cbn [ended fst snd fmap outcome_fmap const list_fmap].
    rewrite run_bind, (run_items _ _ _ (lookup_at_end _ _ _)). reflexivity.
Qed.

(** C5. The attribute stage builds a new list holding, in their order,
    exactly the records of [base] whose five coerced values all lie within
    their inclusive bounds. *)
Theorem C5_attribute_stage (base : loc) (h : heap) ds :
  h !! base = Some (VDict <$> ds) →
  attribute_stage base h = (Ok (length h), h ++ [VDict <$> filter in_bounds ds])
  ∧ (∀ d, d ∈ filter in_bounds ds ↔
          d ∈ ds
          ∧ within watt_lo (num (field d "watt" (VInt 0))) watt_hi = true
          ∧ within cct_lo (num (field d "cct" (VInt 0))) cct_hi = true
          ∧ within beam_lo (num (field d "beam" (VInt 0))) beam_hi = true
          ∧ within lumen_lo (num (field d "lumen" (VInt 0))) lumen_hi = true
          ∧ within price_lo (num (field d "price" (VInt 0))) price_hi = true).
Proof.
  intros Hbs. split.
  - rewrite (attribute_stage_run base h _ Hbs), collect_attributes_records. reflexivity.
  - intros d. rewrite list_elem_of_filter. unfold in_bounds.
    rewrite Is_true_true, !andb_true_iff. tauto.
Qed.

(** C7. The lines of the report after the header are the lines of a prefix
    of the filtered records, which are a subsequence of the records that
    passed the keyword stage, themselves a subsequence of the input: no
    stage reorders. *)
Theorem C7_displayed_is_prefix (h : heap) ds :
  h !! products = Some (VDict <$> ds) →
  result_records ds ≠ [] →
  fst (filter_products h)
  = Ok (join_str nl (header_text (length (result_records ds)) topk
                     :: (line <$> shown_records ds)))
  ∧ shown_records ds `prefix_of` result_records ds
  ∧ result_records ds `sublist_of` base_records ds
  ∧ base_records ds `sublist_of` ds.
Proof.
  intros Hps Hr. split; [|split; [|split]].
  - by rewrite (filter_products_records h ds Hps), (report_text_lines ds Hr).
  - apply slice_to_prefix.
  - apply sublist_filter.
  - unfold base_records. destruct keyword_given; [apply sublist_filter | done].
Qed.

(** The store after a call is the store before it, then what the call
    created. *)
Lemma filter_products_extends (h : heap) :
  ∃ created, snd (filter_products h) = h ++ created.
Proof.
  destruct (h !! products) as [ps|] eqn:Hps.
  - destruct (filter_products_run h ps Hps) as [extra ->]. by exists extra.
  - rewrite (filter_products_unbound h Hps). exists []. by rewrite app_nil_r.
Qed.

Lemma filter_products_keeps (h : heap) (l : loc) :
  (l < length h)%nat → snd (filter_products h) !! l = h !! l.
Proof.
  intros Hl. destruct (filter_products_extends h) as [created ->].
  by apply lookup_app_l.
Qed.

(** C8. The store after a call is the store before it followed by the lists
    the call created: no list that existed before the call has changed. In
    particular the list of [products], and with it every record it holds, is
    the same after the call as before; the filtered records are in new
    lists. *)
Theorem C8_source_not_mutated (h : heap) :
  (∃ created, snd (filter_products h) = h ++ created)
  ∧ snd (filter_products h) !! products = h !! products.
Proof.
  split; [apply filter_products_extends|].
  destruct (h !! products) as [ps|] eqn:Hps.
  - rewrite <- Hps. apply filter_products_keeps. by eapply lookup_lt_Some.
  - by rewrite (filter_products_unbound h Hps).
Qed.

(** The text of a call is a function of the items of [products] alone. *)
Lemma filter_products_text (h : heap) :
  fst (filter_products h) =
  match h !! products with
  | Some ps => report ps
  | None => Raise Stuck
  end.
Proof.
  destruct (h !! products) as [ps|] eqn:Hps.
  - by destruct (filter_products_run h ps Hps) as [extra ->].
  - by rewrite (filter_products_unbound h Hps).
Qed.

(** C9. A second call with the same arguments, made in the store the first
    call left, returns the same text. *)
Theorem C9_same_call_same_text (h : heap) :
  fst (filter_products (snd (filter_products h))) = fst (filter_products h).
Proof.
  rewrite !filter_products_text.
  destruct (h !! products) as [ps|] eqn:Hps.
  - by rewrite filter_products_keeps, Hps by by eapply lookup_lt_Some.
  - rewrite (filter_products_unbound h Hps). cbn [snd]. by rewrite Hps.
Qed.

(** C10. For each of the five attributes of a record [d]: when the key is
    present and holds [null], the attribute stage compares the field as
    [0.0], keeping [d] exactly when [lo <= 0.0 <= hi] and the other four
    tests hold, and a report that displays [d] has the line of [d] among its
    lines, with [None] between the label and the unit of that attribute. A
    key that is present, whatever it holds, shows the text of its value
    there: the placeholder [?] is the text of an absent key only. *)
Theorem C10_null_field d key label unit lo hi :
  (key, label, unit, lo, hi) ∈ attribute_fields →
  d !! key = Some VNone →
  (∀ (base : loc) (h : heap) ds,
     h !! base = Some (VDict <$> ds) →
     ∃ kept,
       attribute_stage base h = (Ok (length h), h ++ [VDict <$> kept])
       ∧ (d ∈ kept ↔
          d ∈ ds
          ∧ within lo 0%float hi = true
          ∧ ∀ key' label' unit' lo' hi',
              (key', label', unit', lo', hi') ∈ attribute_fields →
              key' ≠ key →
              within lo' (num (field d key' (VInt 0))) hi' = true))
  ∧ (∀ (h : heap) ds,
       h !! products = Some (VDict <$> ds) →
       Forall (λ d', plain d' = true) ds →
       d ∈ shown_records ds →
       (∃ lines,
          fst (filter_products h)
          = Ok (join_str nl (header_text (length (result_records ds)) topk :: lines))
          ∧ line d ∈ lines)
       ∧ line d = names d +:+ join_str " | " (segment d <$> attribute_fields)
       ∧ segment d (key, label, unit, lo, hi) = label +:+ "None" +:+ unit
       ∧ within lo 0%float hi = true)
  ∧ (∀ d' v,
       (d' !! key = Some v →
        segment d' (key, label, unit, lo, hi) = label +:+ py_str v +:+ unit)
       ∧ (d' !! key = None →
          segment d' (key, label, unit, lo, hi) = label +:+ "?" +:+ unit)).
Proof.
  intros Hin E.
  assert (Hnum : num (field d key (VInt 0)) = 0%float).
  { unfold field. by rewrite E. }
  split; [|split].
  - intros base h ds Hbs. by eapply attribute_stage_field_as_zero.
  - intros h ds Hps _ Hd.
    destruct (report_shows_record h ds d Hps Hd) as [Hrun Hb].
    split; [done|]. split; [apply line_structure|]. split.
    + unfold segment, field. by rewrite E.
    + rewrite <- Hnum. by eapply in_bounds_field.
  - intros d' v. unfold segment, field. split; by intros ->.
Qed.

(** ** Further properties of [filter_products] *)

Lemma records_of_items ps :
  Forall (λ p, is_record p = true) ps → ∃ ds, ps = VDict <$> ds.
Proof.
  induction 1 as [|p ps Hp _ [ds ->]]; [by exists []|].
  destruct p as [| | | | | |d]; try done. by exists (d :: ds).
Qed.

(** X1. On a collection whose records are plain, a call returns a text
    exactly when every item of [products] is a record; one item that is
    not, wherever it stands and whatever the keyword and the bounds, makes
    the call raise [AttributeError]. *)
Theorem text_iff_all_records (h : heap) ps :
  h !! products = Some ps →
  Forall (λ p, plain_item p = true) ps →
  ((∃ text, fst (filter_products h) = Ok text) ↔ Forall (λ p, is_record p = true) ps)
  ∧ (¬ Forall (λ p, is_record p = true) ps →
     fst (filter_products h) = Raise AttributeError).
Proof.
  intros Hps _.
  assert (Hbad : ¬ Forall (λ p, is_record p = true) ps →
                 fst (filter_products h) = Raise AttributeError).
  { intros Hn. apply not_Forall_Exists in Hn; [|apply _].
    apply Exists_exists in Hn as [p [Hin Hp]].
    apply (filter_products_non_record h ps Hps). exists p. split; [done|].
    by apply not_true_is_false. }
  split; [split|done].
  - intros [text Ht].
    destruct (decide (Forall (λ p, is_record p = true) ps)) as [|Hn]; [done|].
    rewrite (Hbad Hn) in Ht. discriminate.
  - intros [ds ->]%records_of_items. eexists. by apply filter_products_records.
Qed.

(** With an empty list in [products] the call returns the message that
    nothing is loaded and creates no list. *)
Lemma nothing_loaded (h : heap) :
  h !! products = Some [] →
  filter_products h = (Ok "⚠️ 尚未載入產品資料。", h).
Proof.
  intros Hps. unfold filter_products. by rewrite run_bind, (run_items _ _ _ Hps).
Qed.

(** X3. When some record passes the keyword stage and none passes the
    attribute stage, the message names the keyword as it was typed if one
    was given, and is the general message otherwise. *)
Theorem no_attribute_match (h : heap) ds :
  h !! products = Some (VDict <$> ds) →
  base_records ds ≠ [] →
  result_records ds = [] →
  fst (filter_products h)
  = Ok (if keyword_given
        then "❌ 系列關鍵字「" +:+ series_keyword +:+ "」下沒有符合屬性條件的產品。"
        else "❌ 沒有任何產品符合屬性條件。").
Proof.
  intros Hps Hb Hr. rewrite (filter_products_records h ds Hps). unfold report_text.
  destruct ds as [|d ds].
  { unfold base_records in Hb. by destruct keyword_given. }
  destruct (base_records (d :: ds)); [done|]. by rewrite Hr.
Qed.

(** X4. With a cap that is not negative, the lines after the header are
    those of the first [topk] records found: [min topk found] lines, all of
    them when the cap is not below the number found. *)
Theorem lines_up_to_cap (h : heap) ds :
  h !! products = Some (VDict <$> ds) →
  result_records ds ≠ [] →
  0 ≤ topk →
  fst (filter_products h)
  = Ok (join_str nl (header_text (length (result_records ds)) topk
                     :: (line <$> take (Z.to_nat topk) (result_records ds))))
  ∧ length (line <$> take (Z.to_nat topk) (result_records ds))
    = (Z.to_nat topk `min` length (result_records ds))%nat
  ∧ ((length (result_records ds) ≤ Z.to_nat topk)%nat →
     take (Z.to_nat topk) (result_records ds) = result_records ds).
Proof.
  intros Hps Hr Hk. split; [|split].
  - rewrite (filter_products_records h ds Hps), (report_text_lines ds Hr).
    unfold shown_records, slice_to. by rewrite (proj2 (Z.leb_le 0 topk) Hk).
  - by rewrite length_fmap, length_take.
  - intros Hle. by apply take_ge.
Qed.

(** X5. With a negative cap the slice [result[:topk]] leaves out the last
    [-topk] records found: the lines are those of the others, and none when
    no more than [-topk] were found. *)
Theorem negative_cap_drops_last (h : heap) ds :
  h !! products = Some (VDict <$> ds) →
  result_records ds ≠ [] →
  topk < 0 →
  fst (filter_products h)
  = Ok (join_str nl
          (header_text (length (result_records ds)) topk
           :: (line <$> take (length (result_records ds) - Z.to_nat (- topk))
                             (result_records ds))))
  ∧ length (line <$> take (length (result_records ds) - Z.to_nat (- topk))
                          (result_records ds))
    = (length (result_records ds) - Z.to_nat (- topk))%nat.
Proof.
  intros Hps Hr Hk. split.
  - rewrite (filter_products_records h ds Hps), (report_text_lines ds Hr).
    unfold shown_records, slice_to. by rewrite (proj2 (Z.leb_gt 0 topk) Hk).
  - rewrite length_fmap, length_take. lia.
Qed.

Lemma result_records_both ds :
  result_records ds
  = filter (λ d, in_bounds d
                 && (negb keyword_given || matches (strip series_keyword) d)) ds.
Proof.
  unfold result_records, base_records. destruct keyword_given; cbn [negb orb].
  - rewrite list_filter_filter. apply list_filter_iff. intros d.
    rewrite andb_True. tauto.
  - apply list_filter_iff. intros d. by rewrite andb_true_r.
Qed.

(** X6. The two stages amount to one pass: the records found, counted in
    the header and displayed up to the cap, are the input records that pass
    the five range tests and, when a keyword is given, the keyword test, in
    their input order. *)
Theorem found_records_pass_both_tests (h : heap) ds :
  h !! products = Some (VDict <$> ds) →
  let found :=
    filter (λ d, in_bounds d
                 && (negb keyword_given || matches (strip series_keyword) d)) ds in
  found ≠ [] →
  fst (filter_products h)
  = Ok (join_str nl (header_text (length found) topk
                     :: (line <$> slice_to found topk))).
Proof.
  intros Hps found Hf. unfold found in *. rewrite <- result_records_both in *.
  by rewrite (filter_products_records h ds Hps), (report_text_lines ds Hf).
Qed.

Lemma contains_empty_text q : q ≠ EmptyString → contains q EmptyString = false.
Proof. by destruct q. Qed.

(** X7. A record that has neither [series] nor [model] is matched by no
    keyword: both fields default to the empty text, which holds no keyword
    that is not blank, so the keyword stage leaves the record out. *)
Theorem nameless_record_never_matches (h : heap) ds d :
  strip series_keyword ≠ EmptyString →
  d !! "series" = None →
  d !! "model" = None →
  h !! products = Some (VDict <$> ds) →
  matches (strip series_keyword) d = false
  ∧ ∃ kept,
      keyword_stage (strip series_keyword) h = (Ok (length h), h ++ [VDict <$> kept])
      ∧ d ∉ kept.
Proof.
  intros Hq Hs Hm Hps.
  assert (Hno : matches (strip series_keyword) d = false).
  { unfold matches, field. rewrite Hs, Hm. cbn [default py_str].
    by rewrite contains_empty_text. }
  split; [done|]. exists (filter (matches (strip series_keyword)) ds). split.
  - by rewrite (keyword_stage_run _ h _ Hps), collect_keyword_records.
  - rewrite list_elem_of_filter, Hno. by intros [? _].
Qed.

(** X8. A record without [series] is shown under the label of an unnamed
    series, and a record without [model] under that of an unnamed model. *)
Theorem nameless_record_labels d :
  (d !! "series" = None → occurs "**系列：未標示系列**" (line d))
  ∧ (d !! "model" = None → occurs "型號：`未命名`" (line d)).
Proof.
  split; intros E; rewrite line_text; unfold field; rewrite E; cbn [default py_str].
  - exists "- ". eexists. reflexivity.
  - exists ("- **系列：" +:+ py_str (default (VStr "未標示系列") (d !! "series")) +:+ "**｜").
    eexists. rewrite !append_assoc. reflexivity.
Qed.

(** ** Bounds *)

Ltac compare_cases :=
  repeat match goal with
         | H : context [Z.compare ?a ?b] |- _ =>
             destruct (Z.compare_spec a b); try discriminate H
         | |- context [Z.compare ?a ?b] =>
             destruct (Z.compare_spec a b)
         end.

Lemma within_int_bounds lo hi x :
  within (NInt lo) x (NInt hi) = true → lo ≤ hi.
Proof.
  unfold within, le_number_float, le_float_number, compare_int_float.
  rewrite andb_true_iff.
  destruct (Prim2SF x) as [s|s| |s m e]; intros [Hlo Hhi]; try discriminate.
  - compare_cases; lia.
  - by destruct s.
  - destruct (0 <=? e) eqn:He.
    + compare_cases; lia.
    + apply Z.leb_gt in He. assert (0 < 2 ^ (- e)) by (apply Z.pow_pos_nonneg; lia).
      compare_cases; nia.
Qed.


Lemma within_nan lo hi : within lo nan hi = false.
Proof.
  unfold within. destruct lo as [z|f]; cbn [le_number_float]; [reflexivity|].
  rewrite leb_spec. by destruct (Prim2SF f).
Qed.

(** X9. Bounds are not checked against each other: when the lower bound of
    one attribute, an [int], is above its upper bound, no record passes the
    attribute stage, and the call ends in the message of no match. *)
Theorem inverted_bounds_find_nothing (h : heap) ds key label unit lo hi :
  (key, label, unit, NInt lo, NInt hi) ∈ attribute_fields →
  hi < lo →
  h !! products = Some (VDict <$> ds) →
  result_records ds = []
  ∧ (base_records ds ≠ [] →
     fst (filter_products h)
     = Ok (if keyword_given
           then "❌ 系列關鍵字「" +:+ series_keyword +:+ "」下沒有符合屬性條件的產品。"
           else "❌ 沒有任何產品符合屬性條件。")).
Proof.
  intros Hin Hinv Hps.
  assert (Hr : result_records ds = []).
  { unfold result_records. apply elem_of_nil_inv. intros d.
    rewrite list_elem_of_filter, Is_true_true. intros [Hb _].
    apply (in_bounds_field d _ _ _ _ _ Hin), within_int_bounds in Hb. lia. }
  split; [done|]. intros Hb.
  rewrite (filter_products_records h ds Hps). unfold report_text.
  destruct ds as [|d ds]; [unfold base_records in Hb; by destruct keyword_given|].
  destruct (base_records (d :: ds)); [done|]. by rewrite Hr.
Qed.

(** X10. A record whose value for one of the five attributes is the float
    NaN, which [json.load] accepts, passes no bounds: the attribute stage
    leaves it out whatever the sliders say. *)
Theorem nan_is_never_found (base : loc) (h : heap) ds d key label unit lo hi :
  (key, label, unit, lo, hi) ∈ attribute_fields →
  d !! key = Some (VFloat nan) →
  h !! base = Some (VDict <$> ds) →
  in_bounds d = false
  ∧ ∃ kept,
      attribute_stage base h = (Ok (length h), h ++ [VDict <$> kept])
      ∧ d ∉ kept.
Proof.
  intros Hin E Hbs.
  assert (Hno : in_bounds d = false).
  { apply not_true_is_false. intros Hb.
    apply (in_bounds_field d _ _ _ _ _ Hin) in Hb.
    unfold field in Hb. rewrite E in Hb. cbn [default] in Hb.
    change (num (VFloat nan)) with nan in Hb. by rewrite within_nan in Hb. }
  split; [done|]. exists (filter in_bounds ds). split.
  - by rewrite (attribute_stage_run base h _ Hbs), collect_attributes_records.
  - rewrite list_elem_of_filter, Hno. by intros [? _].
Qed.

(** X11. A JSON [true] or [false] in one of the five attributes is a number
    to [float]: it is compared as [1.0] or [0.0], not coerced to the default,
    and is shown as [True] or [False]. *)
Theorem boolean_field_is_a_number d key label unit lo hi (b : bool) :
  (key, label, unit, lo, hi) ∈ attribute_fields →
  d !! key = Some (VBool b) →
  num <$> dict_get (VDict d) key (VInt 0) = Ok (if b then 1%float else 0%float)
  ∧ (in_bounds d = true → within lo (if b then 1%float else 0%float) hi = true)
  ∧ occurs (label +:+ (if b then "True" else "False") +:+ unit) (line d).
Proof.
  intros Hin E.
  pose proof (line_shows_field d _ _ _ _ _ Hin) as Hl.
  pose proof (in_bounds_field d _ _ _ _ _ Hin) as Hb.
  rewrite dict_get_record. unfold field in *. rewrite E in *. cbn [default] in *.
  done.
Qed.

End Filter.

(** ** The claim about [load_products] *)

(** C6. When the file exists and its content parses: an empty array gives
    no record and the message of success with the count 0; a top-level value
    that is not an array gives no record and the message of a format error. *)
Theorem C6_load_products DATA_FILE fs v :
  path_exists fs = true →
  read_json fs = inl v →
  (v = VList [] → load_products DATA_FILE fs = ([], "✅ 已載入 0 筆資料。"))
  ∧ ((∀ items, v ≠ VList items) →
     load_products DATA_FILE fs = ([], "❌ 檔案格式錯誤：最外層應為陣列(list)。")).
Proof.
  intros He Hr. unfold load_products. rewrite He, Hr. cbn [negb]. split.
  - by intros ->.
  - intros Hv. destruct v as [| | | | |items|]; try done. by destruct (Hv items).
Qed.


(** ** Further properties of [load_products] and of calls after loading *)

(** X12. The loader returns records only from a file that exists and holds
    an array: a list that is not empty is the parsed array itself, item for
    item, and the message gives its length. *)
Theorem loaded_records_are_the_array DATA_FILE fs r rs :
  (load_products DATA_FILE fs).1 = r :: rs →
  path_exists fs = true
  ∧ read_json fs = inl (VList (r :: rs))
  ∧ (load_products DATA_FILE fs).2
    = "✅ 已載入 " +:+ dec (Z.of_nat (length (r :: rs))) +:+ " 筆資料。".
Proof.
  unfold load_products. destruct (path_exists fs); cbn [negb]; [|done].
  destruct (read_json fs) as [v|e]; [|done].
  destruct v as [| | | | |items|]; try done. cbn [fst snd]. by intros ->.
Qed.

Section Calls.
Context `{Builtins}.
Variable products : loc.
Variables watt_lo watt_hi cct_lo cct_hi beam_lo beam_hi : number.
Variables lumen_lo lumen_hi price_lo price_hi : number.
Variable topk : Z.

Local Abbreviation call series_keyword :=
  (filter_products products series_keyword watt_lo watt_hi cct_lo cct_hi
     beam_lo beam_hi lumen_lo lumen_hi price_lo price_hi topk).

(** X2. After a load that failed, for a missing file, an exception while
    reading or parsing, or a top-level value that is not an array, every
    call returns the message that nothing is loaded and creates no list. *)
Theorem failed_load_nothing_to_filter DATA_FILE fs series_keyword (h : heap) :
  (path_exists fs = false
   ∨ (∃ e, read_json fs = inr e)
   ∨ (∃ v, read_json fs = inl v ∧ ∀ items, v ≠ VList items)) →
  h !! products = Some (load_products DATA_FILE fs).1 →
  call series_keyword h = (Ok "⚠️ 尚未載入產品資料。", h).
Proof.
  intros Hfail Hps. apply nothing_loaded. rewrite Hps. f_equal.
  unfold load_products. destruct (path_exists fs); cbn [negb]; [|done].
  destruct Hfail as [?|[[e ->]|[v [-> Hv]]]]; [done|done|].
  destruct v as [| | | | |items|]; try done. by destruct (Hv items).
Qed.

(** X13. A keyword that is blank, empty or made of whitespace only, is no
    keyword: the call does what the call with the empty keyword does. *)
Theorem blank_keyword_is_no_keyword series_keyword (h : heap) :
  strip series_keyword = EmptyString →
  call series_keyword h = call EmptyString h.
Proof.
  intros Hblank.
  assert (Hkw : keyword_given series_keyword = false).
  { apply not_true_is_false. by intros Hg%keyword_given_strip. }
  unfold filter_products, attributes_and_report. rewrite Hkw. reflexivity.
Qed.
End Calls.


(** * Closed runs *)

(** A call with the sliders at the ends of their ranges. *)
Abbreviation query series_keyword topk :=
  (filter_products (H := example_builtins) 0 series_keyword
     (NInt 0) (NInt 200) (NInt 2000) (NInt 7000) (NInt 0) (NInt 120)
     (NInt 0) (NInt 15000) (NInt 0) (NInt 200000) topk).

(** C1, the claim as it stands, fails: one record is found and one line is
    displayed, and the header gives 20, the cap, as the number displayed. *)
Lemma C1_header_gives_the_cap :
  (query EmptyString 20 [[VDict track_100]]).1
  = Ok (header_text 1 20 +:+ nl +:+ track_100_line)
  ∧ String.prefix (header_text 1 1) (header_text 1 20 +:+ nl +:+ track_100_line) = false.
Proof. split; vm_compute; reflexivity. Qed.

Lemma C1_header_witness :
  ∃ rest, (query EmptyString 20 [[VDict track_100]]).1 = Ok (header_text 1 20 +:+ rest).
Proof.
  apply (C1_header_states_count_and_cap (H := example_builtins) 0 EmptyString
           (NInt 0) (NInt 200) (NInt 2000) (NInt 7000) (NInt 0) (NInt 120)
           (NInt 0) (NInt 15000) (NInt 0) (NInt 200000) 20
           [[VDict track_100]] [track_100]);
    [reflexivity | by vm_compute].
Defined.

(** C2, the claim as it stands, fails: an array item that is not an object
    has no [get], and the call raises. *)
Lemma C2_non_object_item_raises :
  (query EmptyString 20 [[VDict track_100; VInt 5]]).1 = Raise AttributeError
  ∧ (query "Track" 20 [[VDict track_100; VInt 5]]).1 = Raise AttributeError.
Proof. split; vm_compute; reflexivity. Qed.

Lemma C2_records_witness :
  ∃ text, (query EmptyString 20 [[VDict panel_7; VDict ∅]]).1 = Ok text.
Proof.
  apply (C2_records_never_raise (H := example_builtins) 0 EmptyString
           (NInt 0) (NInt 200) (NInt 2000) (NInt 7000) (NInt 0) (NInt 120)
           (NInt 0) (NInt 15000) (NInt 0) (NInt 200000) 20
           [[VDict panel_7; VDict ∅]] [panel_7; ∅]).
  - reflexivity.
  - repeat constructor.
Defined.

Lemma C3_absent_watt_witness :
  (∃ lines,
     (query EmptyString 20 [[VDict track_100; VDict panel_7]]).1
     = Ok (join_str nl
             (header_text
                (length (result_records (H := example_builtins) EmptyString
                           (NInt 0) (NInt 200) (NInt 2000) (NInt 7000) (NInt 0) (NInt 120)
                           (NInt 0) (NInt 15000) (NInt 0) (NInt 200000)
                           [track_100; panel_7])) 20
              :: lines))
     ∧ line (H := example_builtins) panel_7 ∈ lines)
  ∧ segment (H := example_builtins) panel_7 ("watt", "功率：", "W", NInt 0, NInt 200)
    = "功率：" +:+ "?" +:+ "W"
  ∧ within (NInt 0) 0%float (NInt 200) = true.
Proof.
  destruct (C3_missing_or_non_numeric_field (H := example_builtins) 0 EmptyString
              (NInt 0) (NInt 200) (NInt 2000) (NInt 7000) (NInt 0) (NInt 120)
              (NInt 0) (NInt 15000) (NInt 0) (NInt 200000) 20
              panel_7 "watt" "功率：" "W" (NInt 0) (NInt 200))
    as [_ Hrender].
  - constructor.
  - left. reflexivity.
  - destruct (Hrender eq_refl [[VDict track_100; VDict panel_7]] [track_100; panel_7])
      as (Hrun & _ & Hseg & Hzero).
    + reflexivity.
    + repeat constructor.
    + apply (list_elem_of_lookup_2 _ 1%nat). vm_compute. reflexivity.
    + exact (conj Hrun (conj Hseg Hzero)).
Defined.

(** Scenario C: a keyword that matches nothing, with bounds the record
    would fail as well. *)
Lemma C4_no_match_witness :
  filter_products (H := example_builtins) 0 "Panel"
    (NInt 100) (NInt 200) (NInt 2000) (NInt 7000) (NInt 0) (NInt 120)
    (NInt 0) (NInt 15000) (NInt 0) (NInt 200000) 20 [[VDict track_100]]
  = (Ok "❌ 找不到與「Panel」相關的系列 / 型號。", [[VDict track_100]; []]).
Proof.
  destruct (C4_keyword_stage (H := example_builtins) 0 "Panel"
              (NInt 100) (NInt 200) (NInt 2000) (NInt 7000) (NInt 0) (NInt 120)
              (NInt 0) (NInt 15000) (NInt 0) (NInt 200000) 20
              [[VDict track_100]] [track_100])
    as (_ & _ & Hmsg).
  - reflexivity.
  - discriminate.
  - discriminate.
  - apply Hmsg. reflexivity.
Defined.

(** Scenario D: with watt bounds [10, 50] the record without [watt] is left
    out. *)
Lemma C5_watt_bounds_witness :
  attribute_stage (H := example_builtins)
    (NInt 10) (NInt 50) (NInt 2000) (NInt 7000) (NInt 0) (NInt 120)
    (NInt 0) (NInt 15000) (NInt 0) (NInt 200000) 0
    [[VDict track_100; VDict panel_7]]
  = (Ok 1%nat, [[VDict track_100; VDict panel_7]; [VDict track_100]]).
Proof.
  apply (proj1 (C5_attribute_stage (H := example_builtins)
                  (NInt 10) (NInt 50) (NInt 2000) (NInt 7000) (NInt 0) (NInt 120)
                  (NInt 0) (NInt 15000) (NInt 0) (NInt 200000) 0
                  [[VDict track_100; VDict panel_7]] [track_100; panel_7] eq_refl)).
Defined.

Lemma C6_empty_array_witness :
  load_products "merged_products_with_series.json"
    {| path_exists := true; read_json := inl (VList []) |}
  = ([], "✅ 已載入 0 筆資料。").
Proof.
  apply (proj1 (C6_load_products "merged_products_with_series.json"
                  {| path_exists := true; read_json := inl (VList []) |}
                  (VList []) eq_refl eq_refl)).
  reflexivity.
Defined.

Lemma C7_first_two_witness :
  (query EmptyString 2 [[VDict track_100; VDict panel_7; VDict track_100]]).1
  = Ok (join_str nl [header_text 3 2; track_100_line; panel_7_line]).
Proof.
  apply (proj1 (C7_displayed_is_prefix (H := example_builtins) 0 EmptyString
                  (NInt 0) (NInt 200) (NInt 2000) (NInt 7000) (NInt 0) (NInt 120)
                  (NInt 0) (NInt 15000) (NInt 0) (NInt 200000) 2
                  [[VDict track_100; VDict panel_7; VDict track_100]]
                  [track_100; panel_7; track_100] eq_refl ltac:(by vm_compute))).
Defined.

Lemma C10_null_beam_witness :
  (∃ lines,
     (query EmptyString 20 [[VDict track_100; VDict panel_7]]).1
     = Ok (join_str nl
             (header_text
                (length (result_records (H := example_builtins) EmptyString
                           (NInt 0) (NInt 200) (NInt 2000) (NInt 7000) (NInt 0) (NInt 120)
                           (NInt 0) (NInt 15000) (NInt 0) (NInt 200000)
                           [track_100; panel_7])) 20
              :: lines))
     ∧ line (H := example_builtins) panel_7 ∈ lines)
  ∧ segment (H := example_builtins) panel_7 ("beam", "光束角：", "°", NInt 0, NInt 120)
    = "光束角：" +:+ "None" +:+ "°"
  ∧ within (NInt 0) 0%float (NInt 120) = true.
Proof.
  destruct (C10_null_field (H := example_builtins) 0 EmptyString
              (NInt 0) (NInt 200) (NInt 2000) (NInt 7000) (NInt 0) (NInt 120)
              (NInt 0) (NInt 15000) (NInt 0) (NInt 200000) 20
              panel_7 "beam" "光束角：" "°" (NInt 0) (NInt 120))
    as (_ & Hrender & _).
  - do 3 constructor.
  - reflexivity.
  - destruct (Hrender [[VDict track_100; VDict panel_7]] [track_100; panel_7])
      as (Hrun & _ & Hseg & Hzero).
    + reflexivity.
    + repeat constructor.
    + apply (list_elem_of_lookup_2 _ 1%nat). vm_compute. reflexivity.
    + exact (conj Hrun (conj Hseg Hzero)).
Defined.

(** ** The scenarios *)

(** A file that is missing, unreadable or not an array leaves nothing to
    filter. *)
Example scenario_failed_load :
  (query "Track" 20
     (module_store "merged_products_with_series.json"
        {| path_exists := false; read_json := inr EmptyString |})).1
  = Ok "⚠️ 尚未載入產品資料。"
  ∧ (query EmptyString 20
       (module_store "merged_products_with_series.json"
          {| path_exists := true; read_json := inl (VDict ∅) |})).1
    = Ok "⚠️ 尚未載入產品資料。".
Proof. split; reflexivity. Qed.

(** A: nothing loaded. *)
Example scenario_no_data :
  (query EmptyString 20 [[]]).1 = Ok "⚠️ 尚未載入產品資料。".
Proof. reflexivity. Qed.

(** B: one record, no keyword. *)
Example scenario_one_record :
  (query EmptyString 20 [[VDict track_100]]).1
  = Ok (header_text 1 20 +:+ nl +:+ track_100_line).
Proof. vm_compute. reflexivity. Qed.

(** D: the record without [watt] is displayed with [?W] once the bounds
    admit [0.0]; its [null] beam is displayed as [None], its lumen, a text,
    is compared as a number. *)
Example scenario_placeholder :
  (query "  PN-7 " 20 [[VDict track_100; VDict panel_7]]).1
  = Ok (header_text 1 20 +:+ nl +:+ panel_7_line).
Proof. vm_compute. reflexivity. Qed.

(** E: thirty records, twenty lines. *)
Example scenario_cap :
  (query EmptyString 20 [replicate 30 (VDict track_100)]).1
  = Ok (join_str nl (header_text 30 20 :: replicate 20 track_100_line)).
Proof. vm_compute. reflexivity. Qed.

(** Whitespace around the keyword does not count, a gap inside it does. *)
Example scenario_substring :
  contains "K" "XKY" = true
  ∧ contains "K" "X k Y" = false
  ∧ strip (nl +:+ "  Track-1 " +:+ bytes [227; 128; 128]%nat) = "Track-1"
  ∧ (query "Track 100" 20 [[VDict track_100]]).1
    = Ok "❌ 找不到與「Track 100」相關的系列 / 型號。".
Proof. repeat split; vm_compute; reflexivity. Qed.

(** ** Closed runs of the further properties *)

(** A list of records is not empty when its length, evaluated, is not 0. *)
Ltac not_nil_by_length :=
  let E := fresh in
  intros E; apply (f_equal length) in E; vm_compute in E; discriminate E.

Lemma text_iff_all_records_witness :
  (query EmptyString 20 [[VDict track_100; VInt 5]]).1 = Raise AttributeError.
Proof.
  apply (proj2 (text_iff_all_records (H := example_builtins) 0 EmptyString
                  (NInt 0) (NInt 200) (NInt 2000) (NInt 7000) (NInt 0) (NInt 120)
                  (NInt 0) (NInt 15000) (NInt 0) (NInt 200000) 20
                  [[VDict track_100; VInt 5]] [VDict track_100; VInt 5] eq_refl
                  ltac:(repeat constructor))).
  intros HF. inversion HF as [|? ? _ HF']. inversion HF' as [|? ? Hbad _].
  discriminate Hbad.
Defined.

Lemma no_attribute_match_witness :
  (filter_products (H := example_builtins) 0 "Track"
     (NInt 100) (NInt 200) (NInt 2000) (NInt 7000) (NInt 0) (NInt 120)
     (NInt 0) (NInt 15000) (NInt 0) (NInt 200000) 20 [[VDict track_100]]).1
  = Ok "❌ 系列關鍵字「Track」下沒有符合屬性條件的產品。".
Proof.
  pose proof (no_attribute_match (H := example_builtins) 0 "Track"
                (NInt 100) (NInt 200) (NInt 2000) (NInt 7000) (NInt 0) (NInt 120)
                (NInt 0) (NInt 15000) (NInt 0) (NInt 200000) 20
                [[VDict track_100]] [track_100] eq_refl
                ltac:(not_nil_by_length) ltac:(by vm_compute)) as Hrun.
  vm_compute in Hrun. vm_compute. exact Hrun.
Defined.

Lemma lines_up_to_cap_witness :
  (query EmptyString 2 [[VDict track_100; VDict panel_7; VDict track_100]]).1
  = Ok (join_str nl [header_text 3 2; track_100_line; panel_7_line]).
Proof.
  pose proof (proj1 (lines_up_to_cap (H := example_builtins) 0 EmptyString
                       (NInt 0) (NInt 200) (NInt 2000) (NInt 7000) (NInt 0) (NInt 120)
                       (NInt 0) (NInt 15000) (NInt 0) (NInt 200000) 2
                       [[VDict track_100; VDict panel_7; VDict track_100]]
                       [track_100; panel_7; track_100] eq_refl
                       ltac:(not_nil_by_length) ltac:(done))) as Hrun.
  vm_compute in Hrun. vm_compute. exact Hrun.
Defined.

Lemma negative_cap_witness :
  (query EmptyString (-2) [[VDict track_100; VDict panel_7; VDict track_100]]).1
  = Ok (join_str nl [header_text 3 (-2); track_100_line]).
Proof.
  pose proof (proj1 (negative_cap_drops_last (H := example_builtins) 0 EmptyString
                       (NInt 0) (NInt 200) (NInt 2000) (NInt 7000) (NInt 0) (NInt 120)
                       (NInt 0) (NInt 15000) (NInt 0) (NInt 200000) (-2)
                       [[VDict track_100; VDict panel_7; VDict track_100]]
                       [track_100; panel_7; track_100] eq_refl
                       ltac:(not_nil_by_length) ltac:(done))) as Hrun.
  vm_compute in Hrun. vm_compute. exact Hrun.
Defined.

Lemma found_records_witness :
  (query "T" 20 [[VDict track_100; VDict panel_7]]).1
  = Ok (join_str nl [header_text 1 20; track_100_line]).
Proof.
  pose proof (found_records_pass_both_tests (H := example_builtins) 0 "T"
                (NInt 0) (NInt 200) (NInt 2000) (NInt 7000) (NInt 0) (NInt 120)
                (NInt 0) (NInt 15000) (NInt 0) (NInt 200000) 20
                [[VDict track_100; VDict panel_7]] [track_100; panel_7] eq_refl
                ltac:(not_nil_by_length)) as Hrun.
  vm_compute in Hrun. vm_compute. exact Hrun.
Defined.

Lemma nameless_record_witness :
  matches (H := example_builtins) "Track" no_name = false.
Proof.
  apply (proj1 (nameless_record_never_matches (H := example_builtins) 0 " Track "
                  [[VDict no_name]] [no_name] no_name
                  ltac:(by vm_compute) eq_refl eq_refl eq_refl)).
Defined.

Lemma nameless_labels_witness :
  occurs "**系列：未標示系列**" (line (H := example_builtins) no_name)
  ∧ occurs "型號：`未命名`" (line (H := example_builtins) no_name).
Proof.
  destruct (nameless_record_labels (H := example_builtins) no_name) as [Hs Hm].
  exact (conj (Hs eq_refl) (Hm eq_refl)).
Defined.

Lemma inverted_bounds_witness :
  (filter_products (H := example_builtins) 0 EmptyString
     (NInt 50) (NInt 10) (NInt 2000) (NInt 7000) (NInt 0) (NInt 120)
     (NInt 0) (NInt 15000) (NInt 0) (NInt 200000) 20 [[VDict track_100]]).1
  = Ok "❌ 沒有任何產品符合屬性條件。".
Proof.
  apply (proj2 (inverted_bounds_find_nothing (H := example_builtins) 0 EmptyString
                  (NInt 50) (NInt 10) (NInt 2000) (NInt 7000) (NInt 0) (NInt 120)
                  (NInt 0) (NInt 15000) (NInt 0) (NInt 200000) 20
                  [[VDict track_100]] [track_100] "watt" "功率：" "W" 50 10
                  ltac:(constructor) ltac:(done) eq_refl)).
  discriminate.
Defined.

Lemma nan_witness :
  in_bounds (H := example_builtins)
    (NInt 0) (NInt 200) (NInt 2000) (NInt 7000) (NInt 0) (NInt 120)
    (NInt 0) (NInt 15000) (NInt 0) (NInt 200000) nan_watt = false.
Proof.
  apply (proj1 (nan_is_never_found (H := example_builtins)
                  (NInt 0) (NInt 200) (NInt 2000) (NInt 7000) (NInt 0) (NInt 120)
                  (NInt 0) (NInt 15000) (NInt 0) (NInt 200000)
                  0 [[VDict nan_watt]] [nan_watt] nan_watt
                  "watt" "功率：" "W" (NInt 0) (NInt 200)
                  ltac:(constructor) eq_refl eq_refl)).
Defined.

Lemma boolean_field_witness :
  num (H := example_builtins) <$> dict_get (VDict true_watt) "watt" (VInt 0) = Ok 1%float
  ∧ occurs ("功率：" +:+ "True" +:+ "W") (line (H := example_builtins) true_watt).
Proof.
  destruct (boolean_field_is_a_number (H := example_builtins)
              (NInt 0) (NInt 200) (NInt 2000) (NInt 7000) (NInt 0) (NInt 120)
              (NInt 0) (NInt 15000) (NInt 0) (NInt 200000)
              true_watt "watt" "功率：" "W" (NInt 0) (NInt 200) true
              ltac:(constructor) eq_refl)
    as (Hnum & _ & Hl).
  exact (conj Hnum Hl).
Defined.

Lemma loaded_records_witness :
  path_exists {| path_exists := true; read_json := inl (VList [VDict track_100]) |} = true.
Proof.
  apply (proj1 (loaded_records_are_the_array "merged_products_with_series.json"
                  {| path_exists := true; read_json := inl (VList [VDict track_100]) |}
                  (VDict track_100) [] eq_refl)).
Defined.

Lemma failed_load_witness :
  query "Track" 20
    (module_store "merged_products_with_series.json"
       {| path_exists := false; read_json := inl (VList [VDict track_100]) |})
  = (Ok "⚠️ 尚未載入產品資料。", [[]]).
Proof.
  apply (failed_load_nothing_to_filter (H := example_builtins) 0
           (NInt 0) (NInt 200) (NInt 2000) (NInt 7000) (NInt 0) (NInt 120)
           (NInt 0) (NInt 15000) (NInt 0) (NInt 200000) 20
           "merged_products_with_series.json"
           {| path_exists := false; read_json := inl (VList [VDict track_100]) |}
           "Track" [[]]).
  - by left.
  - reflexivity.
Defined.

Lemma blank_keyword_witness :
  query (" " +:+ nl) 20 [[VDict track_100]] = query EmptyString 20 [[VDict track_100]].
Proof.
  apply (blank_keyword_is_no_keyword (H := example_builtins) 0
           (NInt 0) (NInt 200) (NInt 2000) (NInt 7000) (NInt 0) (NInt 120)
           (NInt 0) (NInt 15000) (NInt 0) (NInt 200000) 20 (" " +:+ nl)
           [[VDict track_100]]).
  reflexivity.
Defined.

